(** * Customer-feedback agent: the plan/state machine

    A shallow embedding of the orchestration core of the repository
    (src/graph.py, src/nodes/supervisor.py, src/nodes/fetch.py, src/state.py)
    and the properties its specification states about it.

    Conventions.
    - Python [str] is a Rocq [string] holding the UTF-8 bytes of the text.
    - A node returns a partial update (a Python dict); [Update] has one
      optional field per key a modelled node can write, [None] meaning that
      the key is not in the returned dict.
    - The language model, the JSON parser, the spreadsheet reader and pandas
      are collaborators outside the repository: their results enter the
      model as arguments of the node that consumes them. *)

From Stdlib Require Import String Ascii List Bool Arith ZArith Lia.
From Stdlib Require Import DecimalString.
Import ListNotations.

Local Open Scope string_scope.
Local Open Scope list_scope.

(** ** Python list operations used by the nodes *)

Module PyList.

(** [x in l] on a list of strings. *)
Definition py_in (x : string) (l : list string) : bool :=
  existsb (String.eqb x) l.

(** [l.remove(x)]: drops the first element equal to [x].  Python raises
    ValueError when there is none; every call in the modelled code sits
    under an [x in l] test, and on that domain the two agree. *)
Fixpoint py_remove (x : string) (l : list string) : list string :=
  match l with
  | [] => []
  | y :: t => if String.eqb y x then t else y :: py_remove x t
  end.

(** [l[i]] with Python's negative indices; [None] is IndexError. *)
Definition py_get {A : Type} (l : list A) (i : Z) : option A :=
  let n := Z.of_nat (length l) in
  if (0 <=? i)%Z then nth_error l (Z.to_nat i)
  else if (- n <=? i)%Z then nth_error l (Z.to_nat (n + i))
  else None.

(** [l[i] == x]. *)
Definition item_is (l : list string) (i : Z) (x : string) : bool :=
  match py_get l i with
  | Some y => String.eqb y x
  | None => false
  end.

(** [l.insert(0, x)] and [l.append(x)]. *)
Definition py_insert0 (x : string) (l : list string) : list string := x :: l.
Definition py_append (x : string) (l : list string) : list string := l ++ [x].

End PyList.
Import PyList.

(** ** Plan normalization (supervisor.py, lines 143-160) *)

Module Normalize.

(** Lines 143-148: fetch is forced to position 0. *)
Definition force_fetch_first (new_plan : list string) : list string :=
  if negb (py_in "fetch" new_plan) then py_insert0 "fetch" new_plan
  else if negb (item_is new_plan 0 "fetch")
       then py_insert0 "fetch" (py_remove "fetch" new_plan)
       else new_plan.

(** Lines 150-155: report is forced to the end. *)
Definition force_report_last (new_plan : list string) : list string :=
  if negb (py_in "report" new_plan) then py_append "report" new_plan
  else if negb (item_is new_plan (-1) "report")
       then py_append "report" (py_remove "report" new_plan)
       else new_plan.

(** Lines 157-160: evaluate is removed once if present, then appended. *)
Definition force_evaluate_last (new_plan : list string) : list string :=
  py_append "evaluate"
    (if py_in "evaluate" new_plan then py_remove "evaluate" new_plan
     else new_plan).

Definition normalize_plan (new_plan : list string) : list string :=
  force_evaluate_last (force_report_last (force_fetch_first new_plan)).

(** A plan in the shape the specification calls normalized. *)
Definition normalized (plan : list string) : bool :=
  item_is plan 0 "fetch" && item_is plan (-1) "evaluate"
  && item_is plan (-2) "report".

(** The canonical full sequence. *)
Definition canonical_plan : list string :=
  ["fetch"; "cluster"; "knowledge_map"; "wordcloud"; "chart"; "report";
   "evaluate"].

End Normalize.
Import Normalize.

(** ** Shared state (state.py) and partial updates *)

Module SharedState.

(** Entries of the message log. *)
Inductive Message : Type :=
| AIMessage (content : string)
| HumanMessage (content : string).

(** One spreadsheet row: column name to cell text. *)
Definition Row : Type := list (string * string).

(** The parsed intent, with the five keys state.py documents. *)
Record QueryContext : Type := mkQueryContext {
  intent : string;
  time_range : option string;
  chart_types : list string;
  needs_clarification : bool;
  clarification_question : option string
}.

(** The fields the modelled nodes read or write.  A key missing from the
    Python dict reads as the default the code passes to [state.get]:
    [False] for the two flags, [0] for the cursor, [None] elsewhere.  The
    cursor is a natural number: the code only ever writes [0],
    [len(plan)] and [current_step + 1] to it.  The remaining artifact
    fields of state.py are written by workers that are not modelled. *)
Record State : Type := mkState {
  messages : list Message;
  user_input : string;
  plan : option (list string);
  plan_approved : bool;
  current_step : nat;
  awaiting_human : bool;
  interrupt_message : option string;
  sheet_url : option string;
  raw_data : option (list Row);
  dataframe_summary : option string;
  query_context : option QueryContext
}.

(** The dict a node returns.  [None] is a missing key; for an optional
    field [Some None] is the key bound to Python's [None]. *)
Record Update : Type := mkUpdate {
  u_messages : list Message;
  u_user_input : option string;
  u_plan : option (option (list string));
  u_plan_approved : option bool;
  u_current_step : option nat;
  u_awaiting_human : option bool;
  u_interrupt_message : option string;
  u_raw_data : option (option (list Row));
  u_dataframe_summary : option (option string);
  u_query_context : option (option QueryContext)
}.

Definition no_update : Update :=
  mkUpdate [] None None None None None None None None None.

Definition overwrite {A : Type} (old : A) (new : option A) : A :=
  match new with
  | Some v => v
  | None => old
  end.

(** Merging an update into the running state: [messages] is appended
    (the [add_messages] reducer), every other key is last-write-wins. *)
Definition apply_update (s : State) (u : Update) : State :=
  {| messages := messages s ++ u_messages u;
     user_input := overwrite (user_input s) (u_user_input u);
     plan := overwrite (plan s) (u_plan u);
     plan_approved := overwrite (plan_approved s) (u_plan_approved u);
     current_step := overwrite (current_step s) (u_current_step u);
     awaiting_human := overwrite (awaiting_human s) (u_awaiting_human u);
     interrupt_message :=
       match u_interrupt_message u with
       | Some m => Some m
       | None => interrupt_message s
       end;
     sheet_url := sheet_url s;
     raw_data := overwrite (raw_data s) (u_raw_data u);
     dataframe_summary :=
       overwrite (dataframe_summary s) (u_dataframe_summary u);
     query_context := overwrite (query_context s) (u_query_context u) |}.

(** Python truth value of the [plan] field: neither [None] nor empty. *)
Definition truthy_plan (p : option (list string)) : bool :=
  match p with
  | Some (_ :: _) => true
  | _ => false
  end.

(** [dict.get(key, default)] on a dict of strings. *)
Fixpoint dict_get (d : list (string * string)) (key default : string)
  : string :=
  match d with
  | [] => default
  | (k, v) :: t => if String.eqb k key then v else dict_get t key default
  end.

End SharedState.
Import SharedState.

(** ** Nodes and routing functions of graph.py *)

Module Graph.

(** Line 22: the tuple of approval words. *)
Definition approval_tokens : list string :=
  ["approved"; "同意"; "確認"; "繼續"; "好"; "是"].

Definition is_approval (response : string) : bool :=
  existsb (String.eqb response) approval_tokens.

(** Line 18: the text handed to [interrupt]. *)
Definition approval_prompt (state : State) : string :=
  match interrupt_message state with
  | Some m => m
  | None => "是否繼續？"
  end.

(** [human_approval_node], from the point where [interrupt] hands back
    the resume value [response]. *)
Definition human_approval_node (state : State) (response : string)
  : Update :=
  if is_approval response then
    {| u_messages := []; u_user_input := None; u_plan := None;
       u_plan_approved := Some true; u_current_step := None;
       u_awaiting_human := Some false; u_interrupt_message := None;
       u_raw_data := None; u_dataframe_summary := None;
       u_query_context := None |}
  else
    {| u_messages := []; u_user_input := Some response;
       u_plan := Some None;
       u_plan_approved := Some false; u_current_step := None;
       u_awaiting_human := Some false; u_interrupt_message := None;
       u_raw_data := None; u_dataframe_summary := None;
       u_query_context := Some None |}.

(** [len(plan)] and [plan[i]] on the optional field.  Both are only
    evaluated behind a truth test of [plan]; on [None] the model returns
    [0] and [None]. *)
Definition plan_len (p : option (list string)) : nat :=
  match p with
  | Some l => length l
  | None => 0
  end.

Definition plan_item (p : option (list string)) (i : nat) : option string :=
  match p with
  | Some l => py_get l (Z.of_nat i)
  | None => None
  end.

(** [step_complete_node]; line 46 is the test for a fetch step that left
    no data. *)
Definition step_complete_node (state : State) : Update :=
  let current_step := current_step state in
  let plan := plan state in
  let raw_data := raw_data state in
  if truthy_plan plan
     && (current_step <? plan_len plan)%nat
     && match plan_item plan current_step with
        | Some step => String.eqb step "fetch"
        | None => false
        end
     && match raw_data with None => true | Some _ => false end
  then
    {| u_messages := []; u_user_input := None; u_plan := None;
       u_plan_approved := None; u_current_step := Some (plan_len plan);
       u_awaiting_human := None; u_interrupt_message := None;
       u_raw_data := None; u_dataframe_summary := None;
       u_query_context := None |}
  else
    {| u_messages := []; u_user_input := None; u_plan := None;
       u_plan_approved := None;
       u_current_step := Some (current_step + 1);
       u_awaiting_human := None; u_interrupt_message := None;
       u_raw_data := None; u_dataframe_summary := None;
       u_query_context := None |}.

(** Lines 78-86. *)
Definition node_map : list (string * string) :=
  [("fetch", "fetch"); ("cluster", "cluster");
   ("knowledge_map", "knowledge_map"); ("wordcloud", "wordcloud");
   ("chart", "chart"); ("report", "report"); ("evaluate", "evaluate")].

(** The four tests of lines 64-87 in order, then the final return of
    line 89.  Line 77 indexes the plan behind [current_step < len(plan)],
    so it cannot raise IndexError; the [None] branch is unreachable. *)
Definition _route_from_supervisor (state : State) : string :=
  let plan := plan state in
  let plan_approved := plan_approved state in
  let awaiting_human := awaiting_human state in
  let current_step := current_step state in
  if awaiting_human then "human_approval"
  else if truthy_plan plan && negb plan_approved then "human_approval"
  else if truthy_plan plan && plan_approved
          && (plan_len plan <=? current_step)%nat
  then "human_approval"
  else if truthy_plan plan && plan_approved
          && (current_step <? plan_len plan)%nat
  then match plan_item plan current_step with
       | Some next_step => dict_get node_map next_step "supervisor"
       | None => "human_approval"
       end
  else "human_approval".

(** Line 154: the names of the seven worker nodes. *)
Definition worker_names : list string :=
  ["fetch"; "cluster"; "knowledge_map"; "wordcloud"; "chart"; "report";
   "evaluate"].

Definition _route_from_human (state : State) : string :=
  if negb (plan_approved state) || negb (truthy_plan (plan state))
  then "supervisor"
  else "supervisor".

Definition _route_after_step (state : State) : string := "supervisor".

End Graph.
Import Graph.

(** ** The Plan Synthesizer (supervisor.py) *)

Module Supervisor.

(** What [_parse_json_response] makes of a model reply: the exception
    the caller catches (json.JSONDecodeError or IndexError), or the
    parsed object. *)
Inductive Reply (A : Type) : Type :=
| Unparsable
| Parsed (a : A).
Arguments Unparsable {A}.
Arguments Parsed {A} a.

(** The plan generator's JSON object; [None] is a missing key. *)
Record PlanData : Type := mkPlanData {
  pd_plan : option (list string);
  pd_explanation : option string
}.

Definition nl : string := String (ascii_of_nat 10) EmptyString.

Definition str_of_nat (n : nat) : string :=
  NilEmpty.string_of_uint (Nat.to_uint n).

(** Lines 108-114. *)
Definition default_query_context : QueryContext :=
  {| intent := "full_analysis"; time_range := None; chart_types := [];
     needs_clarification := false; clarification_question := None |}.

(** Lines 140-141. *)
Definition fallback_plan : list string :=
  ["fetch"; "cluster"; "knowledge_map"; "wordcloud"; "chart"; "report"].
Definition fallback_explanation : string := "將執行完整分析流程".

(** Lines 163-171 and 199-207. *)
Definition plan_step_names : list (string * string) :=
  [("fetch", "讀取 Google Sheet 資料");
   ("cluster", "進行情感分析與意見分群");
   ("knowledge_map", "生成 Knowledge Map");
   ("wordcloud", "生成文字雲");
   ("chart", "生成圖表（圓餅圖、折線圖、長條圖）");
   ("report", "輸出改善建議報告");
   ("evaluate", "品質評估")].

Definition progress_step_names : list (string * string) :=
  [("fetch", "讀取資料"); ("cluster", "分析分群");
   ("knowledge_map", "生成 Knowledge Map"); ("wordcloud", "生成文字雲");
   ("chart", "生成圖表"); ("report", "生成報告");
   ("evaluate", "品質評估")].

(** Lines 172-174: one numbered line per step. *)
Fixpoint plan_lines (i : nat) (new_plan : list string) : list string :=
  match new_plan with
  | [] => []
  | s :: t =>
      ("  " ++ str_of_nat (i + 1) ++ ". " ++ dict_get plan_step_names s s)%string
      :: plan_lines (S i) t
  end.

Definition plan_display (new_plan : list string) : string :=
  String.concat nl (plan_lines 0 new_plan).

(** Line 175. *)
Definition plan_prompt_header : string := "📋 執行計畫：".

Definition interrupt_msg (new_plan : list string) (explanation : string)
  : string :=
  (plan_prompt_header ++ nl ++ plan_display new_plan ++ nl ++ nl
   ++ explanation ++ nl ++ nl ++ "是否同意開始執行？")%string.

Definition completion_message : string :=
  "✅ 所有分析已完成！是否需要調整任何部分？".

(** Lines 99-114: the stored context if any, else the classifier's. *)
Definition resolve_query_context (state : State)
  (intent_reply : Reply QueryContext) : QueryContext :=
  match query_context state with
  | Some qc => qc
  | None =>
      match intent_reply with
      | Parsed qc => qc
      | Unparsable => default_query_context
      end
  end.

(** Lines 135-141: the raw step list and the explanation. *)
Definition raw_plan (plan_reply : Reply PlanData) : list string * string :=
  match plan_reply with
  | Parsed plan_data =>
      (match pd_plan plan_data with Some p => p | None => [] end,
       match pd_explanation plan_data with Some e => e | None => "" end)
  | Unparsable => (fallback_plan, fallback_explanation)
  end.

(** Lines 117-126.  A null question prints as Python's [None]. *)
Definition clarification_update (qc : QueryContext) : Update :=
  let question :=
    match clarification_question qc with
    | Some q => q
    | None => "None"
    end in
  let qc' :=
    {| intent := intent qc; time_range := time_range qc;
       chart_types := chart_types qc; needs_clarification := false;
       clarification_question := clarification_question qc |} in
  {| u_messages := [AIMessage ("🤔 " ++ question)%string];
     u_user_input := None; u_plan := None; u_plan_approved := None;
     u_current_step := None; u_awaiting_human := Some true;
     u_interrupt_message := Some ("🤔 " ++ question)%string;
     u_raw_data := None; u_dataframe_summary := None;
     u_query_context := Some (Some qc') |}.

(** [supervisor_node].  [intent_reply] and [plan_reply] are what the two
    model calls of lines 100 and 130 give after [_parse_json_response];
    each is consulted only on the path that makes the call. *)
Definition supervisor_node (state : State)
  (intent_reply : Reply QueryContext) (plan_reply : Reply PlanData)
  : Update :=
  let plan := plan state in
  let plan_approved := plan_approved state in
  let current_step := current_step state in
  if negb (truthy_plan plan) then
    let query_context := resolve_query_context state intent_reply in
    if needs_clarification query_context then
      clarification_update query_context
    else
      let '(new_plan, explanation) := raw_plan plan_reply in
      let new_plan := normalize_plan new_plan in
      let msg := interrupt_msg new_plan explanation in
      {| u_messages := [AIMessage msg];
         u_user_input := None;
         u_plan := Some (Some new_plan);
         u_plan_approved := Some false;
         u_current_step := Some 0;
         u_awaiting_human := Some true;
         u_interrupt_message := Some msg;
         u_raw_data := None; u_dataframe_summary := None;
         u_query_context := Some (Some query_context) |}
  else if truthy_plan plan && negb plan_approved then
    {| u_messages := [AIMessage "✅ 計畫已確認，開始執行..."];
       u_user_input := None; u_plan := None;
       u_plan_approved := Some true;
       u_current_step := Some 0;
       u_awaiting_human := Some false;
       u_interrupt_message := None;
       u_raw_data := None; u_dataframe_summary := None;
       u_query_context := None |}
  else if plan_approved && (current_step <? plan_len plan)%nat then
    let next_step :=
      match plan_item plan current_step with
      | Some s => s
      | None => ""
      end in
    {| u_messages :=
         [AIMessage ("⏳ 正在執行："
                     ++ dict_get progress_step_names next_step next_step
                     ++ "...")%string];
       u_user_input := None; u_plan := None; u_plan_approved := None;
       u_current_step := Some current_step;
       u_awaiting_human := Some false;
       u_interrupt_message := None;
       u_raw_data := None; u_dataframe_summary := None;
       u_query_context := None |}
  else
    {| u_messages := [AIMessage completion_message];
       u_user_input := None; u_plan := None; u_plan_approved := None;
       u_current_step := None;
       u_awaiting_human := Some true;
       u_interrupt_message := Some completion_message;
       u_raw_data := None; u_dataframe_summary := None;
       u_query_context := None |}.

End Supervisor.
Import Supervisor.

(** ** The edges of [build_graph] around the Approval Gate *)

Module Orchestrator.

(** Lines 145-151: the targets registered for the gate's router.  A
    router result outside the table has no edge. *)
Definition human_edges : list string := ["supervisor"].

(** Lines 129-142: the targets registered for the supervisor's router. *)
Definition supervisor_edges : list string :=
  ["human_approval"; "fetch"; "cluster"; "knowledge_map"; "wordcloud";
   "chart"; "report"; "evaluate"].

Definition edge_target (table : list string) (name : string)
  : option string :=
  if py_in name table then Some name else None.

(** One resume of a suspended thread: the gate consumes [response], its
    router picks the next node, and when that is the supervisor the
    supervisor runs and its router picks the node after it.  The result
    is the state at that point and the node scheduled next; [None] is a
    router result with no registered edge. *)
Definition resume (state : State) (response : string)
  (intent_reply : Reply QueryContext) (plan_reply : Reply PlanData)
  : State * option string :=
  let s1 := apply_update state (human_approval_node state response) in
  match edge_target human_edges (_route_from_human s1) with
  | Some _ =>
      let s2 :=
        apply_update s1 (supervisor_node s1 intent_reply plan_reply) in
      (s2, edge_target supervisor_edges (_route_from_supervisor s2))
  | None => (s1, None)
  end.

End Orchestrator.
Import Orchestrator.
(** ** The Fetch worker (nodes/fetch.py) *)

Module Fetch.

(** The exception classes the handlers of lines 76-93 tell apart. *)
Inductive ExnClass : Type :=
| FileNotFoundError
| ValueError
| OtherException.

(** A call either returns a value or raises; [text] is [str(e)]. *)
Inductive Outcome (A : Type) : Type :=
| Returns (a : A)
| Raises (cls : ExnClass) (text : string).
Arguments Returns {A} a.
Arguments Raises {A} cls text.

Definition bind {A B : Type} (c : Outcome A) (k : A -> Outcome B)
  : Outcome B :=
  match c with
  | Returns a => k a
  | Raises cls text => Raises cls text
  end.

Notation "x <- c ;; k" := (bind c (fun x => k))
  (at level 61, c at next level, right associativity).

(** Lines 47-48. *)
Definition cn_map : list (string * Z) :=
  [("一", 1); ("二", 2); ("三", 3); ("四", 4); ("五", 5);
   ("六", 6); ("七", 7); ("八", 8); ("九", 9); ("十", 10)]%Z.

Fixpoint cn_map_get (d : list (string * Z)) (key : string) : option Z :=
  match d with
  | [] => None
  | (k, v) :: t => if String.eqb k key then Some v else cn_map_get t key
  end.

(** Lines 22-23. *)
Definition quarter_starts (q : Z) : option (Z * Z) :=
  if (q =? 1)%Z then Some (1, 1)%Z
  else if (q =? 2)%Z then Some (4, 1)%Z
  else if (q =? 3)%Z then Some (7, 1)%Z
  else if (q =? 4)%Z then Some (10, 1)%Z
  else None.

Definition quarter_ends (q : Z) : option (Z * Z) :=
  if (q =? 1)%Z then Some (3, 31)%Z
  else if (q =? 2)%Z then Some (6, 30)%Z
  else if (q =? 3)%Z then Some (9, 30)%Z
  else if (q =? 4)%Z then Some (12, 31)%Z
  else None.

(** The four patterns, as written in the source. *)
Definition quarter_pattern : string := "(\d{4})\s*Q(\d)".
Definition year_pattern : string := "(\d{4})\s*年?$".
Definition month_pattern : string := "(\d{4})[\-/年](\d{1,2})月?$".
Definition recent_pattern : string :=
  "最近\s*(\d+|[一二三四五六七八九十]+)\s*個月".

(** [m.group(i)] on the list of captured groups. *)
Definition group (m : list string) (i : nat) : string :=
  nth (i - 1) m "".

(** [needle in text]. *)
Definition contains (needle text : string) : bool :=
  match String.index 0 needle text with
  | Some _ => true
  | None => false
  end.

Definition truthy_str (s : option string) : bool :=
  match s with
  | Some EmptyString => false
  | Some _ => true
  | None => false
  end.

(** ["回饋日期" in df.columns]: some row has the key. *)
Definition has_column (column : string) (rows : list Row) : bool :=
  existsb (fun row => existsb (fun kv => String.eqb (fst kv) column) row)
          rows.

Definition is_empty {A : Type} (l : list A) : bool :=
  match l with
  | [] => true
  | _ :: _ => false
  end.

(** The message-only update every failure path returns. *)
Definition failure_update (text : string) : Update :=
  {| u_messages := [AIMessage text];
     u_user_input := None; u_plan := None; u_plan_approved := None;
     u_current_step := None; u_awaiting_human := None;
     u_interrupt_message := None;
     u_raw_data := Some None;
     u_dataframe_summary := Some None;
     u_query_context := None |}.

(** The six failure messages. *)
Definition msg_no_url : string :=
  "❌ 尚未提供 Google Sheet URL，請在側邊欄輸入。".
Definition msg_not_found (e : string) : string := ("❌ " ++ e)%string.
Definition msg_value_error (e : string) : string :=
  ("❌ 資料讀取錯誤：" ++ e)%string.
Definition msg_other_error (e : string) : string :=
  ("❌ 讀取 Google Sheet 時發生錯誤：" ++ e)%string.
Definition msg_empty : string := "❌ Google Sheet 中沒有資料。".
Definition msg_no_rows_in_range (time_range : string) : string :=
  ("⚠️ 在 " ++ time_range ++ " 範圍內找不到任何資料。")%string.

(** The library calls the node makes.  For [_parse_time_range]: pandas
    timestamps, the regular-expression engine (the captured groups of the
    first match, or [None]), [int], [str.strip().upper()], [pd.Timestamp],
    [+ MonthEnd(1)], [- DateOffset(months=n)] and [Timestamp.now()].  For
    [fetch_node]: the spreadsheet reader, the rows whose date lies in the
    range (lines 111-117) and the summary text (lines 131-152).  The data
    frame is the list of its rows; [to_dict("records")] gives them back. *)
Record Collaborators : Type := mkCollaborators {
  Timestamp : Type;
  re_match : string -> string -> option (list string);
  re_search : string -> string -> option (list string);
  py_int : string -> Outcome Z;
  strip_upper : string -> string;
  pd_Timestamp : Z -> Z -> Z -> Outcome Timestamp;
  month_end : Timestamp -> Outcome Timestamp;
  months_before : Timestamp -> Z -> Outcome Timestamp;
  now : Timestamp;
  read_sheet : string -> Outcome (list Row);
  select_range : Timestamp -> Timestamp -> list Row -> list Row;
  summarize : list Row -> string -> string
}.

Section Node.

Variable lib : Collaborators.

(** Lines 54-60. *)
Definition parse_half_year (time_range : string)
  : Outcome (option (Timestamp lib * Timestamp lib)) :=
  if contains "半年" time_range then
    start <- months_before lib (now lib) 6 ;;
    Returns (Some (start, now lib))
  else Returns None.

(** Lines 43-52.  The numeral is looked up in [cn_map] and, when that
    gives nothing, handed to [int]. *)
Definition parse_recent_months (time_range : string)
  : Outcome (option (Timestamp lib * Timestamp lib)) :=
  match re_search lib recent_pattern time_range with
  | Some m =>
      let num_str := group m 1 in
      n <- match cn_map_get cn_map num_str with
           | Some v => Returns v
           | None => py_int lib num_str
           end ;;
      start <- months_before lib (now lib) n ;;
      Returns (Some (start, now lib))
  | None => parse_half_year time_range
  end.

(** Lines 35-41. *)
Definition parse_month (text time_range : string)
  : Outcome (option (Timestamp lib * Timestamp lib)) :=
  match re_match lib month_pattern text with
  | Some m =>
      year <- py_int lib (group m 1) ;;
      month <- py_int lib (group m 2) ;;
      start <- pd_Timestamp lib year month 1 ;;
      end_ <- month_end lib start ;;
      Returns (Some (start, end_))
  | None => parse_recent_months time_range
  end.

(** Lines 29-33. *)
Definition parse_year (text time_range : string)
  : Outcome (option (Timestamp lib * Timestamp lib)) :=
  match re_match lib year_pattern text with
  | Some m =>
      year <- py_int lib (group m 1) ;;
      start <- pd_Timestamp lib year 1 1 ;;
      end_ <- pd_Timestamp lib year 12 31 ;;
      Returns (Some (start, end_))
  | None => parse_month text time_range
  end.

(** [_parse_time_range]; [Returns None] is the pair [(None, None)]. *)
Definition _parse_time_range (time_range : string)
  : Outcome (option (Timestamp lib * Timestamp lib)) :=
  let text := strip_upper lib time_range in
  match re_match lib quarter_pattern text with
  | Some m =>
      year <- py_int lib (group m 1) ;;
      q <- py_int lib (group m 2) ;;
      match quarter_starts q, quarter_ends q with
      | Some (sm, sd), Some (em, ed) =>
          start <- pd_Timestamp lib year sm sd ;;
          end_ <- pd_Timestamp lib year em ed ;;
          Returns (Some (start, end_))
      | _, _ => parse_year text time_range
      end
  | None => parse_year text time_range
  end.

(** Line 118. *)
Definition filter_desc (time_range : string) (kept before : nat)
  : string :=
  ("（已篩選 " ++ time_range ++ "：" ++ str_of_nat kept ++ "/"
   ++ str_of_nat before ++ " 筆）")%string.

(** Lines 130-159. *)
Definition success_update (raw_data : list Row) (desc : string)
  : Update :=
  let summary := summarize lib raw_data desc in
  {| u_messages :=
       [AIMessage ("📊 已成功讀取資料：" ++ nl ++ summary)%string];
     u_user_input := None; u_plan := None; u_plan_approved := None;
     u_current_step := None; u_awaiting_human := None;
     u_interrupt_message := None;
     u_raw_data := Some (Some raw_data);
     u_dataframe_summary := Some (Some summary);
     u_query_context := None |}.

(** [fetch_node].  An exception of [read_sheet lib] is caught by the three
    handlers; one of [_parse_time_range] is outside every [try]. *)
Definition fetch_node (state : State) : Outcome Update :=
  if negb (truthy_str (sheet_url state)) then
    Returns (failure_update msg_no_url)
  else
    let url := match sheet_url state with Some u => u | None => "" end in
    match read_sheet lib url with
    | Raises FileNotFoundError e =>
        Returns (failure_update (msg_not_found e))
    | Raises ValueError e =>
        Returns (failure_update (msg_value_error e))
    | Raises OtherException e =>
        Returns (failure_update (msg_other_error e))
    | Returns raw_data =>
        if is_empty raw_data then Returns (failure_update msg_empty)
        else
          let time_range :=
            match query_context state with
            | Some qc => time_range qc
            | None => None
            end in
          if truthy_str time_range && has_column "回饋日期" raw_data
          then
            let tr := match time_range with Some t => t | None => "" end in
            range <- _parse_time_range tr ;;
            let '(df, desc) :=
              match range with
              | Some (start, end_) =>
                  let df := select_range lib start end_ raw_data in
                  (df, filter_desc tr (length df) (length raw_data))
              | None => (raw_data, "")
              end in
            if is_empty df
            then Returns (failure_update (msg_no_rows_in_range tr))
            else Returns (success_update df desc)
          else Returns (success_update raw_data "")
    end.

End Node.

End Fetch.
Import Fetch.

(** ** Concrete states used in the examples *)

Module Examples.

(** A fresh thread: every key at its default. *)
Definition fresh_state : State :=
  {| messages := []; user_input := ""; plan := None;
     plan_approved := false; current_step := 0; awaiting_human := false;
     interrupt_message := None; sheet_url := None; raw_data := None;
     dataframe_summary := None; query_context := None |}.

(** A thread holding [p] with the given approval flag and cursor. *)
Definition state_with_plan (p : list string) (approved : bool)
  (cursor : nat) (waiting : bool) : State :=
  {| messages := []; user_input := "請幫我做完整的客戶回饋分析";
     plan := Some p;
     plan_approved := approved; current_step := cursor;
     awaiting_human := waiting;
     interrupt_message := None; sheet_url := None; raw_data := None;
     dataframe_summary := None; query_context := None |}.

(** A normalized plan that names report twice. *)
Definition plan_with_two_reports : list string :=
  ["fetch"; "report"; "cluster"; "report"; "evaluate"].

(** A thread about to run fetch with a time range of twelve months. *)
Definition twelve_months : string := "最近十二個月".

Definition state_twelve_months : State :=
  {| messages := []; user_input := "分析最近十二個月的客戶回饋";
     plan := Some canonical_plan;
     plan_approved := true; current_step := 0; awaiting_human := false;
     interrupt_message := None;
     sheet_url := Some "https://docs.google.com/spreadsheets/d/1AbC";
     raw_data := None; dataframe_summary := None;
     query_context :=
       Some {| intent := "full_analysis";
               time_range := Some twelve_months;
               chart_types := []; needs_clarification := false;
               clarification_question := None |} |}.

(** The collaborators' answers on that run, as CPython's [re] and [int]
    give them: the three anchored patterns do not match the text, the
    fourth captures 十二, and [int] rejects it.  The reader returns one
    dated row. *)
Definition sample_rows : list Row :=
  [[("回饋日期", "2024-10-01"); ("回饋內容", "出貨太慢")]].

Definition sample_re_match (pattern text : string) : option (list string) :=
  None.

Definition sample_re_search (pattern text : string) : option (list string) :=
  if String.eqb pattern recent_pattern && String.eqb text twelve_months
  then Some ["十二"]
  else None.

Definition sample_py_int (s : string) : Outcome Z :=
  Raises ValueError
    ("invalid literal for int() with base 10: '" ++ s ++ "'")%string.

Definition sample_read_sheet (url : string) : Outcome (list Row) :=
  Returns sample_rows.

Definition sample_collaborators : Collaborators :=
  {| Timestamp := Z;
     re_match := sample_re_match;
     re_search := sample_re_search;
     py_int := sample_py_int;
     strip_upper := fun s => s;
     pd_Timestamp := fun _ _ _ => Returns 0%Z;
     month_end := fun t => Returns t;
     months_before := fun t _ => Returns t;
     now := 0%Z;
     read_sheet := sample_read_sheet;
     select_range := fun _ _ rows => rows;
     summarize := fun _ _ => "" |}.

End Examples.
Import Examples.

(** ** Driving the graph (graph.py, [build_graph]) *)

Module Run.

(** The keys no worker node returns: each of the seven workers returns
    [messages] and its own artifacts only (fetch.py lines 68-72 and
    155-159, cluster.py 171-173 and 229-234, knowledge_map.py 83-86,
    wordcloud_gen.py 65-68, chart.py 192-195, report.py 103-106,
    evaluate.py 117-120). *)
Definition writes_no_control (u : Update) : bool :=
  match u_user_input u, u_plan u, u_plan_approved u, u_current_step u,
        u_awaiting_human u, u_interrupt_message u, u_query_context u with
  | None, None, None, None, None, None, None => true
  | _, _, _, _, _, _, _ => false
  end.


Section Drive.

(** The worker nodes, and the two replies the supervisor's model calls
    would get. *)
Variable worker : string -> State -> Update.
Variable intent_reply : Reply QueryContext.
Variable plan_reply : Reply PlanData.




End Drive.


End Run.
Import Run.

(** ** Taking the JSON out of a model reply (supervisor.py, lines 76-82) *)

Module JsonReply.

(** [needle in text] on strings. *)
Fixpoint str_in (needle text : string) : bool :=
  String.prefix needle text
  || match text with
     | EmptyString => false
     | String _ rest => str_in needle rest
     end.

Fixpoint str_drop (n : nat) (s : string) : string :=
  match n, s with
  | 0, _ => s
  | S _, EmptyString => EmptyString
  | S n', String _ rest => str_drop n' rest
  end.

(** The text before and after the leftmost occurrence of [sep]. *)
Fixpoint str_partition (sep s : string) : option (string * string) :=
  if String.prefix sep s then Some (EmptyString, str_drop (String.length sep) s)
  else match s with
       | EmptyString => None
       | String c rest =>
           match str_partition sep rest with
           | Some (before, after) => Some (String c before, after)
           | None => None
           end
       end.

(** [s.split(sep)] for a separator that is not empty: the pieces between
    the occurrences of [sep], found from the left.  Every occurrence uses
    up at least one character, so the length of [s] is fuel enough. *)
Fixpoint split_fuel (fuel : nat) (sep s : string) : list string :=
  match str_partition sep s with
  | None => [s]
  | Some (before, after) =>
      match fuel with
      | 0 => [before]
      | S fuel' => before :: split_fuel fuel' sep after
      end
  end.

Definition py_split (sep s : string) : list string :=
  split_fuel (String.length s) sep s.

(** The first piece of a split: the text before the leftmost occurrence,
    or all of it. *)
Definition head_piece (sep s : string) : string :=
  match str_partition sep s with
  | Some (before, _) => before
  | None => s
  end.


Definition fence : string := "```".
Definition fence_json : string := "```json".

(** Lines 78-81: the text between the first fence and the next one;
    [None] is the IndexError of an index past the pieces. *)
Definition between_fences (opening content : string) : option string :=
  match nth_error (py_split opening content) 1 with
  | Some piece => nth_error (py_split fence piece) 0
  | None => None
  end.

Definition extract_fenced (content : string) : option string :=
  if str_in fence_json content then between_fences fence_json content
  else if str_in fence content then between_fences fence content
  else Some content.

Section Parser.

(** [str.strip] and [json.loads] followed by the reading of the object
    into the type the caller expects; [None] is json.JSONDecodeError. *)
Variable A : Type.
Variable py_strip : string -> string.
Variable json_loads : string -> option A.

(** [_parse_json_response] under the handler of its callers, which
    catches json.JSONDecodeError and IndexError alike. *)
Definition _parse_json_response (content : string) : Reply A :=
  match extract_fenced content with
  | Some text =>
      match json_loads (py_strip text) with
      | Some a => Parsed a
      | None => Unparsable
      end
  | None => Unparsable
  end.

End Parser.

End JsonReply.
Import JsonReply.

(** ** The spreadsheet reader (tools/gsheet.py) *)

Module Sheets.

(** Lines 45-49. *)
Definition id_patterns : list string :=
  ["/spreadsheets/d/([a-zA-Z0-9-_]+)"; "/file/d/([a-zA-Z0-9-_]+)";
   "^([a-zA-Z0-9-_]+)$"].

(** [d[k] = v] on a dict kept as the list of its items in insertion order:
    a key already there keeps its place and takes the new value. *)
Fixpoint dict_set (k v : string) (d : Row) : Row :=
  match d with
  | [] => [(k, v)]
  | (k', v') :: rest =>
      if String.eqb k' k then (k, v) :: rest
      else (k', v') :: dict_set k v rest
  end.

(** [dict(pairs)]. *)
Definition py_dict (pairs : list (string * string)) : Row :=
  fold_left (fun d kv => dict_set (fst kv) (snd kv) d) pairs [].

(** [row.get(k)]. *)
Fixpoint row_get (row : Row) (k : string) : option string :=
  match row with
  | [] => None
  | (k', v) :: rest => if String.eqb k' k then Some v else row_get rest k
  end.

(** Line 78: [row + [""] * (len(headers) - len(row))]; a negative count
    repeats nothing. *)
Definition padded_row (headers row : list string) : list string :=
  row ++ repeat "" (length headers - length row).

(** Lines 72-81: the rows of a sheet given its cell values. *)
Definition rows_of_values (values : list (list string))
  : Outcome (list Row) :=
  match values with
  | [] => Raises ValueError "Google Sheet 中沒有資料"
  | headers :: body =>
      Returns (map (fun row => py_dict (combine headers
                                          (padded_row headers row)))
                   body)
  end.

Definition native_sheet : string := "application/vnd.google-apps.spreadsheet".

(** The calls that leave the repository: the regular-expression search,
    [_get_credentials], the Drive metadata request with its
    [get("mimeType", "")], the two Sheets requests with their
    [get("values", [])], and the Drive download read by pandas into rows
    of strings. *)
Record Services : Type := mkServices {
  url_search : string -> string -> option (list string);
  _get_credentials : Outcome unit;
  mime_type_of : string -> Outcome string;
  sheet_values : string -> Outcome (list (list string));
  drive_frame : string -> string -> Outcome (list Row)
}.

Section Reader.

Variable svc : Services.

(** Lines 50-54. *)
Fixpoint first_id (patterns : list string) (url : string) : option string :=
  match patterns with
  | [] => None
  | pattern :: rest =>
      match url_search svc pattern url with
      | Some m => Some (group m 1)
      | None => first_id rest url
      end
  end.

Definition extract_spreadsheet_id (url : string) : Outcome string :=
  match first_id id_patterns url with
  | Some file_id => Returns file_id
  | None => Raises ValueError ("無法從 URL 擷取 spreadsheet ID: " ++ url)%string
  end.

Definition _read_via_sheets_api (file_id : string) : Outcome (list Row) :=
  values <- sheet_values svc file_id ;;
  rows_of_values values.

(** Lines 108-111: an empty frame is an error.  The frame is the list of
    its rows; the frames pandas reads from a file have no rows when they
    have no columns. *)
Definition _read_via_drive_api (file_id mime_type : string)
  : Outcome (list Row) :=
  rows <- drive_frame svc file_id mime_type ;;
  if is_empty rows then Raises ValueError "檔案中沒有資料"
  else Returns rows.

(** Lines 124-140. *)
Definition read_sheet (url : string) : Outcome (list Row) :=
  file_id <- extract_spreadsheet_id url ;;
  _ <- _get_credentials svc ;;
  mime_type <- mime_type_of svc file_id ;;
  if String.eqb mime_type native_sheet then
    match _read_via_sheets_api file_id with
    | Returns rows => Returns rows
    | Raises _ _ => _read_via_drive_api file_id mime_type
    end
  else _read_via_drive_api file_id mime_type.

End Reader.

End Sheets.

(** ** The chat log of the page (app.py, lines 310-316) *)

Module Chat.

Record ChatEntry : Type := mkChatEntry {
  entry_role : string;
  entry_content : string
}.

(** Line 315: some assistant entry already has this text. *)
Definition already_shown (chat_history : list ChatEntry) (content : string)
  : bool :=
  existsb (fun h => String.eqb (entry_content h) content)
          (filter (fun h => String.eqb (entry_role h) "assistant")
                  chat_history).

(** The loop over the messages of the state: an AI message whose text is
    not in the log yet is appended as an assistant entry. *)
Fixpoint sync_chat_history (chat_history : list ChatEntry)
  (messages : list Message) : list ChatEntry :=
  match messages with
  | [] => chat_history
  | AIMessage content :: rest =>
      sync_chat_history
        (if already_shown chat_history content then chat_history
         else chat_history ++ [mkChatEntry "assistant" content])
        rest
  | HumanMessage _ :: rest => sync_chat_history chat_history rest
  end.

(** The texts of the assistant entries, in order. *)
Definition assistant_texts (chat_history : list ChatEntry) : list string :=
  map entry_content
      (filter (fun h => String.eqb (entry_role h) "assistant") chat_history).

(** The texts of the AI messages, in order. *)
Fixpoint ai_texts (messages : list Message) : list string :=
  match messages with
  | [] => []
  | AIMessage content :: rest => content :: ai_texts rest
  | HumanMessage _ :: rest => ai_texts rest
  end.

End Chat.
Import Chat.

(** ** Flattening the knowledge map (nodes/knowledge_map.py, lines 8-43) *)

Module KnowledgeMap.

(** A node of the map: its name and the optional [children] and
    [keywords] keys; [None] is a key the dict does not have. *)
#[local] Unset Elimination Schemes.
Inductive Tree : Type :=
| Node (name : string) (children : option (list Tree))
       (keywords : option (list string)).
#[local] Set Elimination Schemes.

(** The three parallel lists the function builds. *)
Definition Columns : Type := (list string * list string * list string)%type.

Definition extend (a b : Columns) : Columns :=
  let '(ids, labels, parents) := a in
  let '(ids', labels', parents') := b in
  (ids ++ ids', labels ++ labels', parents ++ parents').

(** [f"{parent}/{name}"]. *)
Definition child_id (parent name : string) : string :=
  (parent ++ "/" ++ name)%string.

(** Lines 32-36: one entry per keyword, under the small category. *)
Fixpoint keyword_entries (small_id : string) (keywords : list string)
  : Columns :=
  match keywords with
  | [] => ([], [], [])
  | kw :: rest =>
      extend ([child_id small_id kw], [kw], [small_id])
             (keyword_entries small_id rest)
  end.

Fixpoint _flatten_tree (node : Tree) (parent : string) {struct node}
  : Columns :=
  match node with
  | Node name children _ =>
      let current_id :=
        match parent with
        | EmptyString => name
        | _ => child_id parent name
        end in
      let fix over (cs : list Tree) : Columns :=
        match cs with
        | [] => ([], [], [])
        | child :: rest =>
            extend
              match child with
              | Node _ (Some _) _ => _flatten_tree child current_id
              | Node cname None (Some kws) =>
                  extend ([child_id current_id cname], [cname], [current_id])
                         (keyword_entries (child_id current_id cname) kws)
              | Node cname None None =>
                  ([child_id current_id cname], [cname], [current_id])
              end
              (over rest)
        end in
      extend ([current_id], [name], [parent])
             match children with
             | Some cs => over cs
             | None => ([], [], [])
             end
  end.

(** Lines 20-41: the entries one child adds below the node whose id is
    [current_id]. *)
Definition child_entries (current_id : string) (child : Tree) : Columns :=
  match child with
  | Node _ (Some _) _ => _flatten_tree child current_id
  | Node cname None (Some kws) =>
      extend ([child_id current_id cname], [cname], [current_id])
             (keyword_entries (child_id current_id cname) kws)
  | Node cname None None =>
      ([child_id current_id cname], [cname], [current_id])
  end.

(** The entries row by row: id, label and parent. *)
Definition rows (cols : Columns) : list (string * (string * string)) :=
  let '(ids, labels, parents) := cols in
  combine ids (combine labels parents).

(** Line 14: the id of the node called [name] under [parent]. *)
Definition node_id (parent name : string) : string :=
  match parent with
  | EmptyString => name
  | _ => child_id parent name
  end.

(** The three lists are equally long, and entry by entry the parent is one
    of [known] or an id listed before it, and the id is that parent, a
    slash and the label. *)
Fixpoint hangs (known ids labels parents : list string) : Prop :=
  match ids, labels, parents with
  | [], [], [] => True
  | i :: ids', l :: labels', p :: parents' =>
      In p known /\ i = child_id p l
      /\ hangs (i :: known) ids' labels' parents'
  | _, _, _ => False
  end.

(** What holds of the entries below a node whose id is [current]. *)
Definition below (current : string) (cols : Columns) : Prop :=
  let '(ids, labels, parents) := cols in
  forall known, In current known -> hangs known ids labels parents.

(** The entry of the node itself comes first, with its id, its name and
    the parent it was given; what follows hangs below it. *)
Definition rooted (parent name : string) (cols : Columns) : Prop :=
  exists ids labels parents,
    cols = (node_id parent name :: ids, name :: labels, parent :: parents)
    /\ hangs [node_id parent name] ids labels parents.

End KnowledgeMap.
Import KnowledgeMap.

(** ** The texts the analysis works on (nodes/cluster.py, lines 176-177) *)

Module Cluster.

(** Python truth of [row.get(key)] on a row of texts. *)
Definition truthy_cell (v : option string) : bool :=
  match v with
  | Some (String _ _) => true
  | _ => false
  end.

(** Line 176: the texts of the rows that have one. *)
Definition feedback_texts (raw_data : list Row) : list string :=
  map (fun row =>
         match Sheets.row_get row "回饋內容" with
         | Some v => v
         | None => ""
         end)
      (filter (fun row => truthy_cell (Sheets.row_get row "回饋內容"))
              raw_data).

(** Line 177: their ids, [FB] and the row number standing in for a
    missing one; [i] is the number of the first row. *)
Fixpoint feedback_ids_from (i : nat) (raw_data : list Row) : list string :=
  match raw_data with
  | [] => []
  | row :: rest =>
      if truthy_cell (Sheets.row_get row "回饋內容")
      then match Sheets.row_get row "回饋編號" with
           | Some v => v
           | None => ("FB" ++ str_of_nat i)%string
           end :: feedback_ids_from (S i) rest
      else feedback_ids_from (S i) rest
  end.

Definition feedback_ids (raw_data : list Row) : list string :=
  feedback_ids_from 0 raw_data.

End Cluster.
Import Cluster.

(** ** The Chart worker (nodes/chart.py, lines 137-195) *)

Module Chart.

(** What the three drawing functions give: the path of the picture, or an
    exception.  [_generate_line_chart] returns [None] when the rows have
    no date column. *)
Record Generators : Type := mkGenerators {
  _generate_pie_chart : Outcome string;
  _generate_line_chart : Outcome (option string);
  _generate_bar_chart : Outcome string
}.

(** The three accumulators of the node: [chart_paths], [generated] and
    [errors]. *)
Record Progress : Type := mkProgress {
  chart_paths : list (string * string);
  generated : list string;
  errors : list string
}.

(** What the node returns: the [chart_paths] key and the text of its one
    message. *)
Record ChartUpdate : Type := mkChartUpdate {
  u_chart_paths : list (string * string);
  u_chart_message : string
}.

(** Lines 144-148. *)
Definition requested_types (state : State) : list string :=
  let chart_types :=
    match query_context state with
    | Some qc => chart_types qc
    | None => []
    end in
  if is_empty chart_types then ["pie"; "line"; "bar"] else chart_types.

Section Node.

Variable gen : Generators.

(** Lines 157-163. *)
Definition pie_step (requested : list string) (sentiment_result : bool)
  (acc : Progress) : Progress :=
  if py_in "pie" requested && sentiment_result then
    match _generate_pie_chart gen with
    | Returns pie_path =>
        {| chart_paths := chart_paths acc ++ [("pie", pie_path)];
           generated := generated acc ++ ["情感分析圓餅圖"];
           errors := errors acc |}
    | Raises _ e =>
        {| chart_paths := chart_paths acc;
           generated := generated acc;
           errors := errors acc ++ [("圓餅圖生成失敗：" ++ e)%string] |}
    end
  else acc.

(** Lines 166-173. *)
Definition line_step (requested : list string) (raw_data : bool)
  (acc : Progress) : Progress :=
  if py_in "line" requested && raw_data then
    match _generate_line_chart gen with
    | Returns (Some (String c rest)) =>
        {| chart_paths := chart_paths acc ++ [("line", String c rest)];
           generated := generated acc ++ ["月度趨勢折線圖"];
           errors := errors acc |}
    | Returns _ => acc
    | Raises _ e =>
        {| chart_paths := chart_paths acc;
           generated := generated acc;
           errors := errors acc ++ [("折線圖生成失敗：" ++ e)%string] |}
    end
  else acc.

(** Lines 176-182. *)
Definition bar_step (requested : list string) (clusters : bool)
  (acc : Progress) : Progress :=
  if py_in "bar" requested && clusters then
    match _generate_bar_chart gen with
    | Returns bar_path =>
        {| chart_paths := chart_paths acc ++ [("bar", bar_path)];
           generated := generated acc ++ ["分群數量長條圖"];
           errors := errors acc |}
    | Raises _ e =>
        {| chart_paths := chart_paths acc;
           generated := generated acc;
           errors := errors acc ++ [("長條圖生成失敗：" ++ e)%string] |}
    end
  else acc.

Definition msg_no_chart : string := "❌ 沒有足夠資料生成圖表，請先執行分析。".

(** Lines 184-190. *)
Definition msg_parts (acc : Progress) : list string :=
  (if is_empty (generated acc) then []
   else [("📊 已生成圖表：" ++ String.concat "、" (generated acc))%string])
  ++ (if is_empty (errors acc) then []
      else [("⚠️ 部分圖表生成失敗：" ++ String.concat "；" (errors acc))%string])
  ++ (if is_empty (generated acc) && is_empty (errors acc)
      then [msg_no_chart] else []).

(** [chart_node]; [sentiment_result] and [clusters] are the truth values of
    the two artifacts the node reads besides the rows.  The creation of the
    output directory (line 150) is taken to succeed. *)
Definition chart_node (sentiment_result clusters : bool) (state : State)
  : ChartUpdate :=
  let raw_data :=
    match raw_data state with
    | Some (_ :: _) => true
    | _ => false
    end in
  let requested := requested_types state in
  let acc :=
    bar_step requested clusters
      (line_step requested raw_data
         (pie_step requested sentiment_result
            {| chart_paths := []; generated := []; errors := [] |})) in
  {| u_chart_paths := chart_paths acc;
     u_chart_message := String.concat nl (msg_parts acc) |}.

End Node.

End Chart.
Import Chart.

(** ** The Plan Synthesizer and the exceptions of its parser
    (supervisor.py, lines 96-141; app.py, lines 95-99) *)

Module Synthesis.

(** What one call of [_parse_json_response] does.  It returns the object,
    or raises one of the two exceptions the callers catch
    (json.JSONDecodeError, IndexError), or raises another exception, whose
    class and text are kept: json.loads raises RecursionError on deeply
    nested text and a ValueError that is no JSONDecodeError on an integer
    literal too long to convert. *)
Inductive Parse (A : Type) : Type :=
| Object (a : A)
| Caught
| Escapes (cls : ExnClass) (text : string).
Arguments Object {A} a.
Arguments Caught {A}.
Arguments Escapes {A} cls text.

(** The try statements of lines 106-115 and 135-141: the handler turns the
    two caught exceptions into the fallback, every other one leaves the
    function. *)
Definition handled {A : Type} (p : Parse A) : Outcome (Reply A) :=
  match p with
  | Object a => Returns (Parsed a)
  | Caught => Returns Unparsable
  | Escapes cls text => Raises cls text
  end.

(** [supervisor_node] with the exceptions it lets through.  [intent_parse]
    and [plan_parse] are what the parser does on the replies of the two
    model calls.  The classifier is called only without a plan and without
    a stored context (line 99), the generator only when no clarification
    is asked (line 128); on the other paths the reply is not consulted and
    [supervisor_node] is given a placeholder. *)
Definition supervisor_node_raising (state : State)
  (intent_parse : Parse QueryContext) (plan_parse : Parse PlanData)
  : Outcome Update :=
  if negb (truthy_plan (plan state)) then
    intent_reply <- match query_context state with
                    | Some _ => Returns Unparsable
                    | None => handled intent_parse
                    end ;;
    if needs_clarification (resolve_query_context state intent_reply)
    then Returns (supervisor_node state intent_reply Unparsable)
    else plan_reply <- handled plan_parse ;;
         Returns (supervisor_node state intent_reply plan_reply)
  else Returns (supervisor_node state Unparsable Unparsable).

(** Lines 95-99 of app.py: an exception that leaves the graph is caught by
    [run_graph], which appends this entry to the chat.  The graph engine
    hands the exception of a node on to the caller of [invoke]. *)
Definition run_graph_error_entry (text : string) : ChatEntry :=
  {| entry_role := "assistant";
     entry_content := ("❌ " ++ "執行時發生錯誤：" ++ text)%string |}.

Definition shown_error {A : Type} (run : Outcome A) : option ChatEntry :=
  match run with
  | Returns _ => None
  | Raises _ text => Some (run_graph_error_entry text)
  end.

(** The text of the RecursionError json.loads raises on a long run of
    opening brackets. *)
Definition recursion_error_text : string :=
  "maximum recursion depth exceeded while decoding a JSON array from a unicode string".

End Synthesis.
Import Synthesis.

(** ** Concrete runs used in the examples *)

Module RunExamples.


(** A thread with stale data from an earlier run, about to fetch again
    without a sheet address. *)
Definition state_stale_data : State :=
  {| messages := []; user_input := "再分析一次";
     plan := Some canonical_plan;
     plan_approved := true; current_step := 0; awaiting_human := false;
     interrupt_message := None; sheet_url := None;
     raw_data := Some sample_rows; dataframe_summary := Some "1";
     query_context := None |}.

(** A time range in words no pattern matches, and collaborators that
    answer so; the range filter, were it called, would keep nothing. *)
Definition unmatched_collaborators : Collaborators :=
  {| Timestamp := Z;
     re_match := fun _ _ => None;
     re_search := fun _ _ => None;
     py_int := sample_py_int;
     strip_upper := fun s => s;
     pd_Timestamp := fun _ _ _ => Returns 0%Z;
     month_end := fun t => Returns t;
     months_before := fun t _ => Returns t;
     now := 0%Z;
     read_sheet := sample_read_sheet;
     select_range := fun _ _ _ => [];
     summarize := fun _ _ => "" |}.

Definition state_last_summer : State :=
  {| messages := []; user_input := "去年夏天的回饋有幾筆"; plan := None;
     plan_approved := false; current_step := 0; awaiting_human := false;
     interrupt_message := None; sheet_url := Some "1AbC";
     raw_data := None; dataframe_summary := None;
     query_context :=
       Some {| intent := "specific_query";
               time_range := Some "去年夏天";
               chart_types := []; needs_clarification := false;
               clarification_question := None |} |}.

(** Services for a native sheet that has its header line and nothing
    under it, and a library whose reader is [read_sheet] over them. *)
Definition header_only_services : Sheets.Services :=
  {| Sheets.url_search :=
       fun pattern url =>
         if String.eqb pattern "^([a-zA-Z0-9-_]+)$" then Some [url] else None;
     Sheets._get_credentials := Returns tt;
     Sheets.mime_type_of := fun _ => Returns Sheets.native_sheet;
     Sheets.sheet_values :=
       fun _ => Returns [["回饋編號"; "回饋日期"; "回饋內容"]];
     Sheets.drive_frame := fun _ _ => Returns [] |}.

Definition with_reader (svc : Sheets.Services) : Collaborators :=
  {| Timestamp := Z;
     re_match := sample_re_match;
     re_search := sample_re_search;
     py_int := sample_py_int;
     strip_upper := fun s => s;
     pd_Timestamp := fun _ _ _ => Returns 0%Z;
     month_end := fun t => Returns t;
     months_before := fun t _ => Returns t;
     now := 0%Z;
     read_sheet := Sheets.read_sheet svc;
     select_range := fun _ _ rows => rows;
     summarize := fun _ _ => "" |}.

(** Services that recognise no address and hold an empty uploaded file. *)
Definition empty_upload_services : Sheets.Services :=
  {| Sheets.url_search :=
       fun pattern url =>
         if String.eqb url "1AbC" && String.eqb pattern "^([a-zA-Z0-9-_]+)$"
         then Some [url] else None;
     Sheets._get_credentials := Returns tt;
     Sheets.mime_type_of := fun _ => Returns "text/csv";
     Sheets.sheet_values := fun _ => Returns [];
     Sheets.drive_frame := fun _ _ => Returns [] |}.

Definition state_with_url (url : string) : State :=
  {| messages := []; user_input := ""; plan := Some canonical_plan;
     plan_approved := true; current_step := 0; awaiting_human := false;
     interrupt_message := None; sheet_url := Some url;
     raw_data := None; dataframe_summary := None;
     query_context := None |}.

(** A small knowledge map: one category with a keyword leaf, one bare
    leaf. *)
Definition sample_map : Tree :=
  Node "顧客回饋"
    (Some [Node "物流" (Some [Node "出貨" None (Some ["慢"; "延遲"])]) None;
           Node "客服" None None])
    None.

End RunExamples.
Import RunExamples.

(** ** Lemmas on the list operations *)

Section PyListFacts.

Lemma py_in_In (x : string) (l : list string) :
  py_in x l = true <-> In x l.
Proof.
  unfold py_in. rewrite existsb_exists. split.
  - intros [y [Hy He]]. apply String.eqb_eq in He. now subst.
  - intros H. exists x. split; [assumption | apply String.eqb_refl].
Qed.

Lemma py_in_false (x : string) (l : list string) :
  py_in x l = false <-> ~ In x l.
Proof.
  rewrite <- py_in_In. destruct (py_in x l); split; congruence.
Qed.

Lemma py_in_app (x : string) (l1 l2 : list string) :
  py_in x (l1 ++ l2) = py_in x l1 || py_in x l2.
Proof. unfold py_in. apply existsb_app. Qed.

Lemma py_remove_skip (x : string) (l t : list string) :
  ~ In x l -> py_remove x (l ++ t) = l ++ py_remove x t.
Proof.
  induction l as [|y l IH]; intros Hn; simpl; [reflexivity|].
  destruct (String.eqb_spec y x) as [->|Hne].
  - exfalso. apply Hn. now left.
  - f_equal. apply IH. intros Hin. apply Hn. now right.
Qed.

Lemma py_remove_found (x : string) (l : list string) :
  In x l -> forall t, py_remove x (l ++ t) = py_remove x l ++ t.
Proof.
  induction l as [|y l IH]; intros Hin t; simpl; [destruct Hin|].
  destruct (String.eqb_spec y x) as [->|Hne]; [reflexivity|].
  simpl. f_equal. apply IH. destruct Hin; [congruence | assumption].
Qed.

Lemma py_remove_length (x : string) (l : list string) :
  In x l -> S (length (py_remove x l)) = length l.
Proof.
  induction l as [|y l IH]; intros Hin; simpl; [destruct Hin|].
  destruct (String.eqb_spec y x) as [->|Hne]; [reflexivity|].
  simpl. f_equal. apply IH. destruct Hin; [congruence | assumption].
Qed.

Lemma py_get_first {A : Type} (x : A) (l : list A) :
  py_get (x :: l) 0 = Some x.
Proof. reflexivity. Qed.

Lemma py_get_last {A : Type} (l : list A) (x : A) :
  py_get (l ++ [x]) (-1) = Some x.
Proof.
  unfold py_get. rewrite length_app. simpl length.
  replace (0 <=? -1)%Z with false by reflexivity.
  destruct (Z.leb_spec (- Z.of_nat (length l + 1)) (-1)); [|lia].
  replace (Z.to_nat (Z.of_nat (length l + 1) + -1)) with (length l) by lia.
  rewrite nth_error_app2 by lia. now rewrite Nat.sub_diag.
Qed.

Lemma py_get_last2 {A : Type} (l : list A) (x y : A) :
  py_get (l ++ [x; y]) (-2) = Some x.
Proof.
  unfold py_get. rewrite length_app. simpl length.
  replace (0 <=? -2)%Z with false by reflexivity.
  destruct (Z.leb_spec (- Z.of_nat (length l + 2)) (-2)); [|lia].
  replace (Z.to_nat (Z.of_nat (length l + 2) + -2)) with (length l) by lia.
  rewrite nth_error_app2 by lia. now rewrite Nat.sub_diag.
Qed.

Lemma item_is_true (l : list string) (i : Z) (x : string) :
  item_is l i x = true <-> py_get l i = Some x.
Proof.
  unfold item_is. destruct (py_get l i) as [y|].
  - rewrite String.eqb_eq. split; congruence.
  - split; discriminate.
Qed.

(** A list whose last item is [x] ends in [x]. *)
Lemma item_last_shape (l : list string) (x : string) :
  item_is l (-1) x = true -> exists q, l = q ++ [x].
Proof.
  intros H. apply item_is_true in H.
  destruct l as [|y q] using rev_ind; [discriminate|].
  rewrite py_get_last in H. exists q. congruence.
Qed.

End PyListFacts.

(** ** The shape normalization gives a plan *)

Section NormalizeFacts.

Lemma force_fetch_first_shape (p : list string) :
  exists q, force_fetch_first p = "fetch" :: q.
Proof.
  unfold force_fetch_first, py_insert0.
  destruct (py_in "fetch" p) eqn:Hin; simpl; [|eauto].
  destruct (item_is p 0 "fetch") eqn:Hfirst; simpl; [|eauto].
  apply item_is_true in Hfirst.
  destruct p as [|x t]; [discriminate|].
  rewrite py_get_first in Hfirst. injection Hfirst as ->. eauto.
Qed.

Lemma force_report_last_shape (q : list string) :
  exists q', force_report_last ("fetch" :: q) = "fetch" :: q' ++ ["report"].
Proof.
  unfold force_report_last, py_append.
  destruct (py_in "report" ("fetch" :: q)) eqn:Hin; simpl negb; cbv iota.
  - destruct (item_is ("fetch" :: q) (-1) "report") eqn:Hlast;
      simpl negb; cbv iota.
    + apply item_last_shape in Hlast. destruct Hlast as [q0 Hq0].
      destruct q0 as [|y q1]; simpl in Hq0; [discriminate|].
      injection Hq0 as <- ->. exists q1. reflexivity.
    + exists (py_remove "report" q). reflexivity.
  - exists q. reflexivity.
Qed.

Lemma force_evaluate_last_shape (q : list string) :
  exists q',
    force_evaluate_last ("fetch" :: q ++ ["report"])
    = "fetch" :: q' ++ ["report"; "evaluate"].
Proof.
  unfold force_evaluate_last, py_append.
  destruct (py_in "evaluate" ("fetch" :: q ++ ["report"])) eqn:Hin.
  - exists (py_remove "evaluate" q).
    change (py_remove "evaluate" ("fetch" :: q ++ ["report"]))
      with ("fetch" :: py_remove "evaluate" (q ++ ["report"])).
    destruct (in_dec string_dec "evaluate" q) as [Hq|Hq].
    + rewrite (py_remove_found _ _ Hq). simpl. now rewrite <- app_assoc.
    + rewrite (py_remove_skip _ _ _ Hq). simpl.
      change ("fetch" :: q ++ ["report"]) with (["fetch"] ++ q ++ ["report"])
        in Hin.
      rewrite !py_in_app in Hin. simpl in Hin.
      apply py_in_false in Hq. rewrite Hq in Hin. discriminate.
  - exists q. simpl. now rewrite <- app_assoc.
Qed.

Lemma normalize_plan_shape (p : list string) :
  exists q, normalize_plan p = "fetch" :: q ++ ["report"; "evaluate"].
Proof.
  unfold normalize_plan.
  destruct (force_fetch_first_shape p) as [q1 ->].
  destruct (force_report_last_shape q1) as [q2 ->].
  apply force_evaluate_last_shape.
Qed.

(** What the shape says about the three positions and the length. *)
Lemma shape_positions (q : list string) :
  let p := "fetch" :: q ++ ["report"; "evaluate"] in
  3 <= length p
  /\ py_get p 0 = Some "fetch"
  /\ py_get p (-1) = Some "evaluate"
  /\ py_get p (-2) = Some "report".
Proof.
  cbv zeta. repeat split.
  - simpl. rewrite length_app. simpl. lia.
  - replace ("fetch" :: q ++ ["report"; "evaluate"])
      with (("fetch" :: q ++ ["report"]) ++ ["evaluate"])
      by (simpl; now rewrite <- app_assoc).
    apply py_get_last.
  - change ("fetch" :: q ++ ["report"; "evaluate"])
      with (("fetch" :: q) ++ ["report"; "evaluate"]).
    apply py_get_last2.
Qed.

(** A normalized plan has that shape. *)
Lemma normalized_shape (p : list string) :
  normalized p = true ->
  exists q, p = "fetch" :: q ++ ["report"; "evaluate"].
Proof.
  unfold normalized. rewrite !andb_true_iff. intros [[Hf He] Hr].
  apply item_last_shape in He. destruct He as [q0 ->].
  apply item_is_true in Hr.
  destruct q0 as [|y q1] using rev_ind.
  - discriminate.
  - clear IHq1. rewrite <- app_assoc in Hr. simpl in Hr.
    rewrite py_get_last2 in Hr. injection Hr as ->.
    apply item_is_true in Hf. rewrite <- app_assoc in Hf |- *. simpl in *.
    destruct q1 as [|z q2]; simpl in Hf; [discriminate|].
    rewrite py_get_first in Hf. injection Hf as ->.
    exists q2. reflexivity.
Qed.

End NormalizeFacts.

(** ** The Plan Synthesizer's plans *)

Section SupervisorPlans.

(** In the new-plan branch the update's plan is the normalized raw list. *)
Lemma supervisor_new_plan (state : State)
  (intent_reply : Reply QueryContext) (plan_reply : Reply PlanData) :
  truthy_plan (plan state) = false ->
  needs_clarification (resolve_query_context state intent_reply) = false ->
  supervisor_node state intent_reply plan_reply
  = let new_plan := normalize_plan (fst (raw_plan plan_reply)) in
    let msg := interrupt_msg new_plan (snd (raw_plan plan_reply)) in
    {| u_messages := [AIMessage msg];
       u_user_input := None;
       u_plan := Some (Some new_plan);
       u_plan_approved := Some false;
       u_current_step := Some 0;
       u_awaiting_human := Some true;
       u_interrupt_message := Some msg;
       u_raw_data := None; u_dataframe_summary := None;
       u_query_context :=
         Some (Some (resolve_query_context state intent_reply)) |}.
Proof.
  intros Hplan Hclar. unfold supervisor_node.
  rewrite Hplan, Hclar. simpl negb. cbv iota.
  destruct (raw_plan plan_reply) as [p e]. reflexivity.
Qed.

(** The node writes [plan] on no other path. *)
Lemma supervisor_writes_plan_only_when_absent (state : State)
  (intent_reply : Reply QueryContext) (plan_reply : Reply PlanData) :
  u_plan (supervisor_node state intent_reply plan_reply) <> None ->
  truthy_plan (plan state) = false
  /\ needs_clarification (resolve_query_context state intent_reply) = false.
Proof.
  unfold supervisor_node.
  destruct (truthy_plan (plan state)); simpl negb; cbv iota.
  - simpl andb.
    destruct (negb (plan_approved state)); [simpl; congruence|].
    destruct (plan_approved state
              && (current_step state <? plan_len (plan state))%nat);
      simpl; congruence.
  - destruct (needs_clarification
                (resolve_query_context state intent_reply));
      [simpl; congruence|]. intros _. split; reflexivity.
Qed.

Lemma fallback_normalizes_to_canonical :
  normalize_plan fallback_plan = canonical_plan.
Proof. reflexivity. Qed.

End SupervisorPlans.

(** C1. Every plan the Plan Synthesizer produces in its new-plan branch,
    whatever the generator replied (a step list, an empty list, a reply
    without a plan or one that cannot be parsed), has at least three steps,
    starts with fetch, ends with evaluate and has report just before it. *)
Theorem new_plan_starts_fetch_ends_report_evaluate (state : State)
  (intent_reply : Reply QueryContext) (plan_reply : Reply PlanData) :
  truthy_plan (plan state) = false ->
  needs_clarification (resolve_query_context state intent_reply) = false ->
  exists p,
    u_plan (supervisor_node state intent_reply plan_reply) = Some (Some p)
    /\ 3 <= length p
    /\ py_get p 0 = Some "fetch"
    /\ py_get p (-1) = Some "evaluate"
    /\ py_get p (-2) = Some "report".
Proof.
  intros Hplan Hclar.
  rewrite (supervisor_new_plan _ _ _ Hplan Hclar). cbv zeta.
  exists (normalize_plan (fst (raw_plan plan_reply))).
  split; [reflexivity|].
  destruct (normalize_plan_shape (fst (raw_plan plan_reply))) as [q ->].
  apply shape_positions.
Qed.

Lemma new_plan_starts_fetch_ends_report_evaluate_witness :
  exists p,
    u_plan (supervisor_node fresh_state Unparsable
              (Parsed {| pd_plan := Some ["chart"; "evaluate"; "fetch"];
                         pd_explanation := None |}))
    = Some (Some p)
    /\ 3 <= length p
    /\ py_get p 0 = Some "fetch"
    /\ py_get p (-1) = Some "evaluate"
    /\ py_get p (-2) = Some "report".
Proof.
  apply (new_plan_starts_fetch_ends_report_evaluate fresh_state Unparsable);
    reflexivity.
Defined.

(** ** Re-applying the normalization *)

Section Idempotence.

Lemma normalize_fixed_point (q : list string) :
  ~ In "report" q -> ~ In "evaluate" q ->
  normalize_plan ("fetch" :: q ++ ["report"; "evaluate"])
  = "fetch" :: q ++ ["report"; "evaluate"].
Proof.
  intros Hr He. unfold normalize_plan.
  assert (H1 : force_fetch_first ("fetch" :: q ++ ["report"; "evaluate"])
               = "fetch" :: q ++ ["report"; "evaluate"]) by reflexivity.
  rewrite H1.
  assert (H2 : force_report_last ("fetch" :: q ++ ["report"; "evaluate"])
               = "fetch" :: q ++ ["evaluate"; "report"]).
  { unfold force_report_last, py_append.
    replace (py_in "report" ("fetch" :: q ++ ["report"; "evaluate"]))
      with true.
    2:{ symmetry. apply py_in_In. right. apply in_or_app. right. now left. }
    replace (item_is ("fetch" :: q ++ ["report"; "evaluate"]) (-1) "report")
      with false.
    2:{ unfold item_is.
        replace ("fetch" :: q ++ ["report"; "evaluate"])
          with (("fetch" :: q ++ ["report"]) ++ ["evaluate"])
          by (simpl; now rewrite <- app_assoc).
        now rewrite py_get_last. }
    simpl negb. cbv iota.
    change (py_remove "report" ("fetch" :: q ++ ["report"; "evaluate"]))
      with ("fetch" :: py_remove "report" (q ++ ["report"; "evaluate"])).
    rewrite (py_remove_skip _ _ _ Hr). simpl. now rewrite <- app_assoc. }
  rewrite H2.
  unfold force_evaluate_last, py_append.
  replace (py_in "evaluate" ("fetch" :: q ++ ["evaluate"; "report"]))
    with true.
  2:{ symmetry. apply py_in_In. right. apply in_or_app. right. now left. }
  change (py_remove "evaluate" ("fetch" :: q ++ ["evaluate"; "report"]))
    with ("fetch" :: py_remove "evaluate" (q ++ ["evaluate"; "report"])).
  rewrite (py_remove_skip _ _ _ He). simpl. now rewrite <- app_assoc.
Qed.

Lemma count_once_not_inside (x : string) (q : list string) :
  x = "report" \/ x = "evaluate" ->
  count_occ string_dec ("fetch" :: q ++ ["report"; "evaluate"]) x = 1 ->
  ~ In x q.
Proof.
  intros Hx Hc.
  apply (count_occ_not_In string_dec).
  change ("fetch" :: q ++ ["report"; "evaluate"])
    with (["fetch"] ++ q ++ ["report"; "evaluate"]) in Hc.
  rewrite !count_occ_app in Hc.
  destruct Hx as [-> | ->]; simpl in Hc; lia.
Qed.

End Idempotence.

(** C5 (as stated, refuted). A plan can satisfy the three position
    conditions and still change under the normalization: with report named
    twice, the first report is moved behind the second. *)
Lemma normalized_plan_with_two_reports_changes :
  normalized plan_with_two_reports = true
  /\ normalize_plan plan_with_two_reports
     = ["fetch"; "cluster"; "report"; "report"; "evaluate"]
  /\ normalize_plan plan_with_two_reports <> plan_with_two_reports.
Proof.
  split; [reflexivity|]. split; [reflexivity|]. discriminate.
Qed.

(** C5 (amended). A normalized plan that names report exactly once and
    evaluate exactly once is left unchanged, element for element, by
    re-applying the normalization. *)
Theorem normalize_idempotent_without_duplicates (plan : list string) :
  normalized plan = true ->
  count_occ string_dec plan "report" = 1 ->
  count_occ string_dec plan "evaluate" = 1 ->
  normalize_plan plan = plan.
Proof.
  intros Hn Hr He.
  destruct (normalized_shape plan Hn) as [q ->].
  apply normalize_fixed_point.
  - apply count_once_not_inside; [now left | assumption].
  - apply count_once_not_inside; [now right | assumption].
Qed.

Lemma normalize_idempotent_without_duplicates_witness :
  normalize_plan canonical_plan = canonical_plan.
Proof.
  apply (normalize_idempotent_without_duplicates canonical_plan);
    reflexivity.
Defined.

(** C6 (as stated, refuted). A reply of the plan generator on which the
    parser raises an exception other than the two the handler names, here
    the RecursionError of deeply nested text, is not replaced by the
    canonical plan: the exception leaves the Plan Synthesizer, no plan is
    produced, and the user is shown an error entry. *)
Lemma deeply_nested_plan_reply_is_shown_as_error :
  supervisor_node_raising fresh_state Caught
    (Escapes OtherException recursion_error_text)
  = Raises OtherException recursion_error_text
  /\ (forall u,
        supervisor_node_raising fresh_state Caught
          (Escapes OtherException recursion_error_text)
        <> Returns u)
  /\ shown_error
       (supervisor_node_raising fresh_state Caught
          (Escapes OtherException recursion_error_text))
     = Some {| entry_role := "assistant";
               entry_content :=
                 ("❌ 執行時發生錯誤：" ++ recursion_error_text)%string |}.
Proof.
  split; [reflexivity|]. split; [|reflexivity].
  intros u. discriminate.
Qed.

(** C6 (amended). When the parser raises json.JSONDecodeError or IndexError
    on the plan generator's reply, the Plan Synthesizer returns, the final
    plan is exactly fetch, cluster, knowledge_map, wordcloud, chart, report,
    evaluate, and nothing tells the user of a failure: no error entry is
    shown, and the update is the one a well-formed reply carrying the
    fallback list would have produced, its only message being the plan
    prompt.  Any other exception the parser raises on that reply leaves the
    Plan Synthesizer and is shown to the user as an error. *)
Theorem caught_parse_error_falls_back_to_canonical (state : State)
  (intent_parse : Parse QueryContext) (intent_reply : Reply QueryContext) :
  truthy_plan (plan state) = false ->
  (query_context state = None -> handled intent_parse = Returns intent_reply) ->
  needs_clarification (resolve_query_context state intent_reply) = false ->
  (exists u,
     supervisor_node_raising state intent_parse Caught = Returns u
     /\ shown_error (supervisor_node_raising state intent_parse Caught) = None
     /\ u_plan u = Some (Some canonical_plan)
     /\ u = supervisor_node state intent_reply
              (Parsed {| pd_plan := Some fallback_plan;
                         pd_explanation := Some fallback_explanation |})
     /\ u_messages u
        = [AIMessage (interrupt_msg canonical_plan fallback_explanation)]
     /\ u_interrupt_message u
        = Some (interrupt_msg canonical_plan fallback_explanation)
     /\ String.prefix plan_prompt_header
          (interrupt_msg canonical_plan fallback_explanation) = true
     /\ String.prefix "❌"
          (interrupt_msg canonical_plan fallback_explanation) = false)
  /\ (forall cls text,
        supervisor_node_raising state intent_parse (Escapes cls text)
        = Raises cls text
        /\ shown_error
             (supervisor_node_raising state intent_parse (Escapes cls text))
           = Some (run_graph_error_entry text)).
Proof.
  intros Hplan Hintent Hclar.
  assert (Hrun : forall plan_parse,
             supervisor_node_raising state intent_parse plan_parse
             = plan_reply <- handled plan_parse ;;
               Returns (supervisor_node state intent_reply plan_reply)).
  { intros plan_parse. unfold supervisor_node_raising.
    rewrite Hplan. cbn [negb].
    destruct (query_context state) as [qc|] eqn:Hqc.
    - cbn [bind].
      assert (Hsame : forall r : Reply QueryContext,
                 resolve_query_context state r = qc).
      { intros r. unfold resolve_query_context. now rewrite Hqc. }
      rewrite Hsame in Hclar. rewrite Hsame, Hclar.
      destruct (handled plan_parse) as [plan_reply|cls text];
        [|reflexivity].
      cbn [bind]. f_equal.
      rewrite !(supervisor_new_plan state _ plan_reply Hplan);
        rewrite ?Hsame; try assumption. reflexivity.
    - rewrite (Hintent eq_refl). cbn [bind]. rewrite Hclar. reflexivity. }
  split.
  - exists (supervisor_node state intent_reply Unparsable).
    rewrite Hrun. cbn [handled bind shown_error].
    split; [reflexivity|]. split; [reflexivity|].
    rewrite !(supervisor_new_plan _ _ _ Hplan Hclar). cbv zeta.
    simpl raw_plan. simpl fst. simpl snd.
    rewrite fallback_normalizes_to_canonical.
    repeat split.
  - intros cls text. rewrite Hrun. split; reflexivity.
Qed.

Lemma caught_parse_error_falls_back_to_canonical_witness :
  exists u,
    supervisor_node_raising fresh_state Caught Caught = Returns u
    /\ u_plan u = Some (Some canonical_plan).
Proof.
  destruct (caught_parse_error_falls_back_to_canonical fresh_state Caught
              Unparsable eq_refl (fun _ => eq_refl) eq_refl)
    as [(u & Hrun & _ & Hplan & _) _].
  exists u. split; assumption.
Defined.


(** ** The Router *)

Section RouterFacts.

Lemma dict_get_missing (d : list (string * string)) (key default : string) :
  ~ In key (map fst d) -> dict_get d key default = default.
Proof.
  induction d as [|[k v] d IH]; intros Hn; simpl; [reflexivity|].
  destruct (String.eqb_spec k key) as [->|Hne].
  - exfalso. apply Hn. now left.
  - apply IH. intros Hin. apply Hn. now right.
Qed.

Lemma node_map_names_itself (step : string) :
  In step worker_names -> dict_get node_map step "supervisor" = step.
Proof.
  intros Hin. repeat (destruct Hin as [<-|Hin]; [reflexivity|]).
  destruct Hin.
Qed.

Lemma node_map_default (step : string) :
  ~ In step worker_names -> dict_get node_map step "supervisor" = "supervisor".
Proof. intros Hn. apply dict_get_missing. exact Hn. Qed.

(** Behind [current_step < len(plan)] the indexing of the plan succeeds. *)
Lemma plan_item_in_range (p : option (list string)) (i : nat) :
  i < plan_len p -> exists step, plan_item p i = Some step.
Proof.
  destruct p as [l|]; simpl; [|lia]. intros Hlt.
  unfold py_get. destruct (Z.leb_spec 0 (Z.of_nat i)); [|lia].
  rewrite Nat2Z.id.
  destruct (nth_error l i) eqn:E; [eauto|].
  apply nth_error_None in E. lia.
Qed.

End RouterFacts.

(** C2 (as stated, refuted). With no plan and nothing awaited the Router
    does not hand control to the Plan Synthesizer: it names the Approval
    Gate. *)
Lemma route_without_plan_is_approval_gate :
  plan fresh_state = None
  /\ awaiting_human fresh_state = false
  /\ _route_from_supervisor fresh_state = "human_approval"
  /\ _route_from_supervisor fresh_state <> "supervisor".
Proof. repeat split. discriminate. Qed.

(** C2 (amended). The Router applies, in first-match order: (1) awaiting a
    human: the Approval Gate; (2) a plan that is not approved: the Approval
    Gate; (3) an approved plan with the cursor at or past its end: the
    Approval Gate; (4) an approved plan with the cursor inside it: the
    worker named by the step at the cursor when that is one of the seven
    worker names, the Plan Synthesizer for any other name; (5) otherwise
    (no plan): the Approval Gate. *)
Theorem route_from_supervisor_rules (state : State) :
  (awaiting_human state = true ->
   _route_from_supervisor state = "human_approval")
  /\ (awaiting_human state = false ->
      truthy_plan (plan state) = true -> plan_approved state = false ->
      _route_from_supervisor state = "human_approval")
  /\ (awaiting_human state = false ->
      truthy_plan (plan state) = true -> plan_approved state = true ->
      plan_len (plan state) <= current_step state ->
      _route_from_supervisor state = "human_approval")
  /\ (awaiting_human state = false ->
      truthy_plan (plan state) = true -> plan_approved state = true ->
      current_step state < plan_len (plan state) ->
      exists step,
        plan_item (plan state) (current_step state) = Some step
        /\ (In step worker_names -> _route_from_supervisor state = step)
        /\ (~ In step worker_names ->
            _route_from_supervisor state = "supervisor"))
  /\ (awaiting_human state = false -> truthy_plan (plan state) = false ->
      _route_from_supervisor state = "human_approval").
Proof.
  unfold _route_from_supervisor.
  repeat split.
  - intros ->. reflexivity.
  - intros -> -> ->. reflexivity.
  - intros -> -> -> Hle. simpl.
    apply Nat.leb_le in Hle. now rewrite Hle.
  - intros -> -> -> Hlt.
    destruct (plan_item_in_range _ _ Hlt) as [step Hstep].
    exists step. split; [assumption|]. simpl.
    assert (Hnle : (plan_len (plan state) <=? current_step state)%nat = false)
      by (apply Nat.leb_gt; assumption).
    apply Nat.ltb_lt in Hlt. rewrite Hnle, Hlt, Hstep.
    split; [apply node_map_names_itself | apply node_map_default].
  - intros -> ->. reflexivity.
Qed.

Lemma route_from_supervisor_rules_witness :
  _route_from_supervisor (state_with_plan canonical_plan true 2 false)
  = "knowledge_map"
  /\ _route_from_supervisor fresh_state = "human_approval".
Proof.
  destruct (route_from_supervisor_rules
              (state_with_plan canonical_plan true 2 false))
    as (_ & _ & _ & H4 & _).
  destruct (route_from_supervisor_rules fresh_state) as (_ & _ & _ & _ & H5).
  split.
  - destruct (H4 eq_refl eq_refl eq_refl ltac:(simpl; lia))
      as (step & Hstep & Hin & _).
    injection Hstep as <-. apply Hin. simpl. tauto.
  - apply H5; reflexivity.
Defined.

(** ** The Step Sequencer *)

(** C3. After a worker, the cursor jumps to the length of the plan when the
    plan is present, the cursor is inside it, the step at the cursor is
    fetch and no data was read; in every other case the cursor grows by
    one. *)
Theorem step_complete_advances_or_short_circuits (state : State) :
  let state' := apply_update state (step_complete_node state) in
  (forall p,
      plan state = Some p ->
      current_step state < length p ->
      py_get p (Z.of_nat (current_step state)) = Some "fetch" ->
      raw_data state = None ->
      u_current_step (step_complete_node state) = Some (length p)
      /\ current_step state' = length p)
  /\ (~ (exists p,
           plan state = Some p
           /\ current_step state < length p
           /\ py_get p (Z.of_nat (current_step state)) = Some "fetch"
           /\ raw_data state = None) ->
      u_current_step (step_complete_node state)
      = Some (current_step state + 1)
      /\ current_step state' = current_step state + 1).
Proof.
  cbv zeta. unfold step_complete_node. split.
  - intros p Hp Hlt Hfetch Hraw. rewrite Hp, Hraw. simpl plan_len.
    simpl plan_item. rewrite Hfetch.
    apply Nat.ltb_lt in Hlt. rewrite Hlt.
    destruct p as [|x t]; [discriminate|]. simpl. split; reflexivity.
  - intros Hnot.
    destruct (plan state) as [p|] eqn:Hp; [|simpl; split; reflexivity].
    destruct (truthy_plan (Some p)
              && (current_step state <? plan_len (Some p))%nat
              && match plan_item (Some p) (current_step state) with
                 | Some step => String.eqb step "fetch"
                 | None => false
                 end
              && match raw_data state with
                 | None => true
                 | Some _ => false
                 end) eqn:Hcond; [|simpl; split; reflexivity].
    exfalso. apply Hnot. exists p.
    rewrite !andb_true_iff in Hcond.
    destruct Hcond as [[[_ Hlt] Hitem] Hraw].
    apply Nat.ltb_lt in Hlt. simpl in Hlt, Hitem.
    repeat split; try assumption.
    + destruct (py_get p (Z.of_nat (current_step state))) as [step|];
        [|discriminate].
      apply String.eqb_eq in Hitem. now subst.
    + destruct (raw_data state); [discriminate | reflexivity].
Qed.

Lemma step_complete_advances_or_short_circuits_witness :
  current_step
    (apply_update
       (state_with_plan
          ["fetch"; "cluster"; "wordcloud"; "chart"; "report"; "evaluate"]
          true 0 false)
       (step_complete_node
          (state_with_plan
             ["fetch"; "cluster"; "wordcloud"; "chart"; "report"; "evaluate"]
             true 0 false)))
  = 6.
Proof.
  destruct (step_complete_advances_or_short_circuits
              (state_with_plan
                 ["fetch"; "cluster"; "wordcloud"; "chart"; "report";
                  "evaluate"] true 0 false)) as [Hjump _].
  exact (proj2 (Hjump _ eq_refl ltac:(simpl; lia) eq_refl eq_refl)).
Defined.

(** ** The Approval Gate *)

Section GateFacts.

Lemma is_approval_spec (response : string) :
  is_approval response = true <-> In response approval_tokens.
Proof.
  unfold is_approval. rewrite existsb_exists. split.
  - intros [t [Ht He]]. apply String.eqb_eq in He. now subst.
  - intros H. exists response. split; [assumption | apply String.eqb_refl].
Qed.

End GateFacts.

(** C4. On an approval token the gate sets plan_approved and clears
    awaiting_human, and plan, query_context, user_input and current_step
    keep their values; on any other resume value it stores that text in
    user_input, clears plan and query_context, and leaves plan_approved
    and awaiting_human false. *)
Theorem human_approval_effect (state : State) (response : string) :
  let state' := apply_update state (human_approval_node state response) in
  (is_approval response = true ->
   plan_approved state' = true
   /\ awaiting_human state' = false
   /\ plan state' = plan state
   /\ query_context state' = query_context state
   /\ user_input state' = user_input state
   /\ current_step state' = current_step state)
  /\ (is_approval response = false ->
      user_input state' = response
      /\ plan state' = None
      /\ query_context state' = None
      /\ plan_approved state' = false
      /\ awaiting_human state' = false).
Proof.
  cbv zeta. unfold human_approval_node.
  split; intros ->; simpl; repeat split.
Qed.

Lemma human_approval_effect_witness :
  plan (apply_update (state_with_plan canonical_plan false 0 true)
          (human_approval_node (state_with_plan canonical_plan false 0 true)
             "同意"))
  = Some canonical_plan
  /\ plan (apply_update (state_with_plan canonical_plan false 0 true)
             (human_approval_node
                (state_with_plan canonical_plan false 0 true)
                "不要文字雲"))
     = None.
Proof.
  split.
  - apply (human_approval_effect
             (state_with_plan canonical_plan false 0 true) "同意").
    reflexivity.
  - apply (human_approval_effect
             (state_with_plan canonical_plan false 0 true) "不要文字雲").
    reflexivity.
Defined.

(** C10. The Approval Gate approves exactly on the six resume values
    approved, 同意, 確認, 繼續, 好, 是: on these it returns the approval
    update, which sets plan_approved and leaves the plan alone; on every
    other value, yes and ok among them, it returns the revision update,
    which clears the plan and the query context and stores the value as the
    new user input. *)
Theorem approval_tokens_are_exactly_six (state : State) (response : string) :
  (u_plan_approved (human_approval_node state response) = Some true
   <-> response = "approved" \/ response = "同意" \/ response = "確認"
       \/ response = "繼續" \/ response = "好" \/ response = "是")
  /\ (response = "approved" \/ response = "同意" \/ response = "確認"
      \/ response = "繼續" \/ response = "好" \/ response = "是" ->
      human_approval_node state response
      = {| u_messages := []; u_user_input := None; u_plan := None;
           u_plan_approved := Some true; u_current_step := None;
           u_awaiting_human := Some false; u_interrupt_message := None;
           u_raw_data := None; u_dataframe_summary := None;
           u_query_context := None |})
  /\ (~ (response = "approved" \/ response = "同意" \/ response = "確認"
         \/ response = "繼續" \/ response = "好" \/ response = "是") ->
      human_approval_node state response
      = {| u_messages := []; u_user_input := Some response;
           u_plan := Some None;
           u_plan_approved := Some false; u_current_step := None;
           u_awaiting_human := Some false; u_interrupt_message := None;
           u_raw_data := None; u_dataframe_summary := None;
           u_query_context := Some None |})
  /\ u_plan (human_approval_node state "yes") = Some None
  /\ u_plan_approved (human_approval_node state "yes") = Some false
  /\ u_plan (human_approval_node state "ok") = Some None
  /\ u_plan_approved (human_approval_node state "ok") = Some false.
Proof.
  assert (Hiff : is_approval response = true <->
                 response = "approved" \/ response = "同意"
                 \/ response = "確認" \/ response = "繼續"
                 \/ response = "好" \/ response = "是").
  { rewrite is_approval_spec. unfold approval_tokens. simpl.
    intuition congruence. }
  split; [|split; [|split; [|repeat split]]].
  - rewrite <- Hiff. unfold human_approval_node.
    destruct (is_approval response); simpl; split; congruence.
  - intros Hsix. apply Hiff in Hsix. unfold human_approval_node.
    now rewrite Hsix.
  - intros Hnot. unfold human_approval_node.
    destruct (is_approval response) eqn:E; [|reflexivity].
    exfalso. apply Hnot. apply Hiff. reflexivity.
Qed.

Lemma approval_tokens_are_exactly_six_witness :
  u_plan (human_approval_node (state_with_plan canonical_plan false 0 true)
            "同意")
  = None
  /\ u_plan (human_approval_node (state_with_plan canonical_plan false 0 true)
               "yes")
     = Some None.
Proof.
  split.
  - rewrite (proj1 (proj2 (approval_tokens_are_exactly_six
                             (state_with_plan canonical_plan false 0 true)
                             "同意"))); [reflexivity|].
    right. left. reflexivity.
  - rewrite (proj1 (proj2 (proj2 (approval_tokens_are_exactly_six
                                    (state_with_plan canonical_plan false 0
                                       true)
                                    "yes")))); [reflexivity|].
    intros H. repeat (destruct H as [H|H]; [discriminate|]). discriminate.
Defined.

(** ** Resuming at the completion pause *)

Section ResumeFacts.

(** The gate's router has one answer. *)
Lemma route_from_human_constant (state : State) :
  _route_from_human state = "supervisor".
Proof.
  unfold _route_from_human.
  now destruct (negb (plan_approved state)
                || negb (truthy_plan (plan state))).
Qed.

(** With an approved plan and the cursor at or past its end the supervisor
    takes its last branch. *)
Lemma supervisor_completion (state : State)
  (intent_reply : Reply QueryContext) (plan_reply : Reply PlanData) :
  truthy_plan (plan state) = true ->
  plan_approved state = true ->
  plan_len (plan state) <= current_step state ->
  supervisor_node state intent_reply plan_reply
  = {| u_messages := [AIMessage completion_message];
       u_user_input := None; u_plan := None; u_plan_approved := None;
       u_current_step := None;
       u_awaiting_human := Some true;
       u_interrupt_message := Some completion_message;
       u_raw_data := None; u_dataframe_summary := None;
       u_query_context := None |}.
Proof.
  intros Hp Ha Hle. unfold supervisor_node. rewrite Hp, Ha. simpl.
  assert (Hlt : (current_step state <? plan_len (plan state))%nat = false)
    by (apply Nat.ltb_ge; assumption).
  now rewrite Hlt.
Qed.

End ResumeFacts.

(** C7 (what the code does). From the completion pause an approval token
    does not end the pause: the gate's router hands control to the
    supervisor, whose last branch sets awaiting_human again with the
    completion message, and the supervisor's router schedules the Approval
    Gate once more.  The plan is kept, so nothing is synthesized anew. *)
Theorem approval_at_completion_pauses_again (state : State)
  (response : string)
  (intent_reply : Reply QueryContext) (plan_reply : Reply PlanData) :
  truthy_plan (plan state) = true ->
  plan_approved state = true ->
  plan_len (plan state) <= current_step state ->
  is_approval response = true ->
  snd (resume state response intent_reply plan_reply) = Some "human_approval"
  /\ awaiting_human (fst (resume state response intent_reply plan_reply))
     = true
  /\ interrupt_message (fst (resume state response intent_reply plan_reply))
     = Some completion_message
  /\ plan (fst (resume state response intent_reply plan_reply)) = plan state.
Proof.
  intros Hp Ha Hle Hok. unfold resume.
  rewrite route_from_human_constant. simpl edge_target. cbv iota.
  set (s1 := apply_update state (human_approval_node state response)).
  assert (H1 : plan s1 = plan state
               /\ plan_approved s1 = true
               /\ current_step s1 = current_step state).
  { subst s1. unfold human_approval_node. rewrite Hok. simpl. tauto. }
  destruct H1 as (H1p & H1a & H1c).
  rewrite (supervisor_completion s1 intent_reply plan_reply)
    by (rewrite ?H1p, ?H1c; assumption).
  simpl. repeat split. exact H1p.
Qed.

Lemma approval_at_completion_pauses_again_witness :
  snd (resume (state_with_plan ["fetch"; "report"; "evaluate"] true 3 true)
         "approved" Unparsable Unparsable)
  = Some "human_approval".
Proof.
  apply (approval_at_completion_pauses_again
           (state_with_plan ["fetch"; "report"; "evaluate"] true 3 true)
           "approved" Unparsable Unparsable);
    solve [reflexivity | simpl; lia].
Defined.

(** C9. Run with a plan that is present but not approved, the Plan
    Synthesizer itself returns plan_approved true and current_step 0 (and
    awaiting_human false); no resume value enters the computation. *)
Theorem supervisor_approves_unapproved_plan (state : State)
  (intent_reply : Reply QueryContext) (plan_reply : Reply PlanData) :
  truthy_plan (plan state) = true ->
  plan_approved state = false ->
  let u := supervisor_node state intent_reply plan_reply in
  u_plan_approved u = Some true
  /\ u_current_step u = Some 0
  /\ u_awaiting_human u = Some false
  /\ u_plan u = None
  /\ plan_approved (apply_update state u) = true
  /\ current_step (apply_update state u) = 0.
Proof.
  intros Hp Ha. cbv zeta. unfold supervisor_node. rewrite Hp, Ha. simpl.
  repeat split.
Qed.

Lemma supervisor_approves_unapproved_plan_witness :
  u_plan_approved
    (supervisor_node (state_with_plan canonical_plan false 4 false)
       Unparsable Unparsable)
  = Some true.
Proof.
  apply (supervisor_approves_unapproved_plan
           (state_with_plan canonical_plan false 4 false)
           Unparsable Unparsable);
    reflexivity.
Defined.


(** ** The Fetch worker *)

Section FetchFacts.

Variable lib : Collaborators.

(** A failure update carries one message and binds the two data keys to
    [None]; it writes nothing else. *)
Lemma failure_update_message_only (text : string) :
  failure_update text
  = {| u_messages := [AIMessage text];
       u_user_input := None; u_plan := None; u_plan_approved := None;
       u_current_step := None; u_awaiting_human := None;
       u_interrupt_message := None;
       u_raw_data := Some None; u_dataframe_summary := Some None;
       u_query_context := None |}.
Proof. reflexivity. Qed.

Lemma fetch_no_url (state : State) :
  truthy_str (sheet_url state) = false ->
  fetch_node lib state = Returns (failure_update msg_no_url).
Proof. intros H. unfold fetch_node. now rewrite H. Qed.

Lemma fetch_reader_raises (state : State) (url : string) (cls : ExnClass)
  (e : string) :
  sheet_url state = Some url -> url <> "" ->
  read_sheet lib url = Raises cls e ->
  fetch_node lib state
  = Returns (failure_update
               match cls with
               | FileNotFoundError => msg_not_found e
               | ValueError => msg_value_error e
               | OtherException => msg_other_error e
               end).
Proof.
  intros Hu Hne Hr. unfold fetch_node. rewrite Hu.
  destruct url as [|c url]; [congruence|]. simpl. rewrite Hr.
  now destruct cls.
Qed.

Lemma fetch_sheet_empty (state : State) (url : string) :
  sheet_url state = Some url -> url <> "" ->
  read_sheet lib url = Returns [] ->
  fetch_node lib state = Returns (failure_update msg_empty).
Proof.
  intros Hu Hne Hr. unfold fetch_node. rewrite Hu.
  destruct url as [|c url]; [congruence|]. simpl. now rewrite Hr.
Qed.

Lemma fetch_no_rows_in_range (state : State) (url tr : string)
  (qc : QueryContext) (rows : list Row) (start end_ : Timestamp lib) :
  sheet_url state = Some url -> url <> "" ->
  read_sheet lib url = Returns rows -> rows <> [] ->
  query_context state = Some qc -> time_range qc = Some tr -> tr <> "" ->
  has_column "回饋日期" rows = true ->
  _parse_time_range lib tr = Returns (Some (start, end_)) ->
  select_range lib start end_ rows = [] ->
  fetch_node lib state = Returns (failure_update (msg_no_rows_in_range tr)).
Proof.
  intros Hu Hne Hr Hrows Hq Ht Htr Hcol Hparse Hsel.
  unfold fetch_node. rewrite Hu.
  destruct url as [|c url]; [congruence|]. simpl. rewrite Hr.
  destruct rows as [|r rows]; [congruence|]. simpl is_empty. cbv iota.
  rewrite Hq, Ht. destruct tr as [|c' tr]; [congruence|].
  simpl truthy_str. rewrite Hcol. simpl andb. cbv iota.
  rewrite Hparse. simpl. now rewrite Hsel.
Qed.

(** An exception of the reader never leaves the node: when the node raises,
    the reader had returned rows and the time-range parser raised. *)
Lemma fetch_raises_only_from_parser (state : State) (cls : ExnClass)
  (text : string) :
  fetch_node lib state = Raises cls text ->
  exists tr, _parse_time_range lib tr = Raises cls text.
Proof.
  unfold fetch_node.
  destruct (negb (truthy_str (sheet_url state))); [discriminate|].
  destruct (read_sheet lib _) as [rows|[] e]; try discriminate.
  destruct (is_empty rows); [discriminate|].
  destruct (truthy_str _ && has_column "回饋日期" rows); [|discriminate].
  match goal with
  | |- context [_parse_time_range lib ?t] =>
      destruct (_parse_time_range lib t) as [[[a b]|]|cls' text'] eqn:E
  end; simpl.
  - destruct (is_empty _); discriminate.
  - destruct (is_empty rows); discriminate.
  - intros H. injection H as <- <-. eauto.
Qed.

(** The six failure messages are told apart by their first words, except
    that the not-found message repeats the reader's own text. *)
Lemma failure_messages_distinct (e e' tr : string) :
  msg_no_url <> msg_empty
  /\ msg_no_url <> msg_value_error e
  /\ msg_no_url <> msg_other_error e
  /\ msg_empty <> msg_value_error e
  /\ msg_empty <> msg_other_error e
  /\ msg_value_error e <> msg_other_error e'
  /\ msg_no_rows_in_range tr <> msg_no_url
  /\ msg_no_rows_in_range tr <> msg_empty
  /\ msg_no_rows_in_range tr <> msg_not_found e
  /\ msg_no_rows_in_range tr <> msg_value_error e
  /\ msg_no_rows_in_range tr <> msg_other_error e.
Proof.
  unfold msg_no_url, msg_empty, msg_value_error, msg_other_error,
    msg_no_rows_in_range, msg_not_found.
  repeat split; simpl; discriminate.
Qed.

(** C8 (what the code does). The node raises when the time range names a
    count of months by a numeral that [cn_map] does not hold: the reader
    has returned dated rows, none of the three anchored patterns matches,
    the fourth captures the numeral, the lookup in [cn_map] gives nothing
    and [int] raises ValueError on it, outside every [try] of the node. *)
Theorem fetch_raises_on_unmapped_numeral (state : State) (url tr : string)
  (qc : QueryContext) (rows : list Row) (m : list string) (text : string) :
  sheet_url state = Some url -> url <> "" ->
  read_sheet lib url = Returns rows -> rows <> [] ->
  has_column "回饋日期" rows = true ->
  query_context state = Some qc -> time_range qc = Some tr -> tr <> "" ->
  re_match lib quarter_pattern (strip_upper lib tr) = None ->
  re_match lib year_pattern (strip_upper lib tr) = None ->
  re_match lib month_pattern (strip_upper lib tr) = None ->
  re_search lib recent_pattern tr = Some m ->
  cn_map_get cn_map (group m 1) = None ->
  py_int lib (group m 1) = Raises ValueError text ->
  fetch_node lib state = Raises ValueError text.
Proof.
  intros Hu Hne Hr Hrows Hcol Hq Ht Htr Hq1 Hy Hm Hs Hcn Hint.
  unfold fetch_node. rewrite Hu.
  destruct url as [|c url]; [congruence|]. simpl. rewrite Hr.
  destruct rows as [|r rows]; [congruence|]. simpl is_empty. cbv iota.
  rewrite Hq, Ht. destruct tr as [|c' tr]; [congruence|].
  simpl truthy_str. rewrite Hcol. simpl andb. cbv iota.
  unfold _parse_time_range. rewrite Hq1.
  unfold parse_year. rewrite Hy.
  unfold parse_month. rewrite Hm.
  unfold parse_recent_months. rewrite Hs, Hcn, Hint. reflexivity.
Qed.

End FetchFacts.

Lemma fetch_raises_on_unmapped_numeral_witness :
  fetch_node sample_collaborators state_twelve_months
  = Raises ValueError "invalid literal for int() with base 10: '十二'".
Proof.
  apply (fetch_raises_on_unmapped_numeral sample_collaborators
           state_twelve_months
           "https://docs.google.com/spreadsheets/d/1AbC" twelve_months
           {| intent := "full_analysis";
              time_range := Some twelve_months;
              chart_types := []; needs_clarification := false;
              clarification_question := None |}
           sample_rows ["十二"]);
    solve [reflexivity | discriminate].
Defined.

(** ** What the normalization keeps *)

Section NormalizeKeeps.

Lemma filter_py_remove (f : string -> bool) (x : string) (l : list string) :
  f x = false -> filter f (py_remove x l) = filter f l.
Proof.
  intros Hx. induction l as [|y t IH]; simpl; [reflexivity|].
  destruct (String.eqb_spec y x) as [->|Hne].
  - now rewrite Hx.
  - simpl. now rewrite IH.
Qed.

Lemma filter_snoc_out (f : string -> bool) (x : string) (l : list string) :
  f x = false -> filter f (l ++ [x]) = filter f l.
Proof.
  intros Hx. rewrite filter_app. simpl. rewrite Hx. apply app_nil_r.
Qed.

Lemma py_remove_In (x y : string) (l : list string) :
  In y (py_remove x l) -> In y l.
Proof.
  induction l as [|z t IH]; simpl; [tauto|].
  destruct (String.eqb z x); simpl; tauto.
Qed.

Lemma py_remove_NoDup (x : string) (l : list string) :
  NoDup l -> NoDup (py_remove x l) /\ ~ In x (py_remove x l).
Proof.
  induction 1 as [|z t Hz Ht IH]; simpl.
  - split; [constructor | tauto].
  - destruct (String.eqb_spec z x) as [->|Hne].
    + split; assumption.
    + destruct IH as [IH1 IH2]. split.
      * constructor; [|assumption]. intros Hin. apply Hz.
        now apply py_remove_In in Hin.
      * simpl. tauto.
Qed.

Lemma NoDup_snoc (x : string) (l : list string) :
  NoDup l -> ~ In x l -> NoDup (l ++ [x]).
Proof.
  induction 1 as [|z t Hz Ht IH]; simpl; intros Hx.
  - constructor; [tauto | constructor].
  - constructor.
    + rewrite in_app_iff. simpl. intros [H|[H|[]]]; [tauto|].
      apply Hx. now left.
    + apply IH. tauto.
Qed.

Lemma NoDup_app_disjoint (x : string) (l1 l2 : list string) :
  NoDup (l1 ++ l2) -> In x l1 -> In x l2 -> False.
Proof.
  induction l1 as [|y t IH]; simpl; intros Hnd H1 H2; [tauto|].
  inversion Hnd as [|? ? Hy Ht]; subst.
  destruct H1 as [->|H1].
  - apply Hy. rewrite in_app_iff. now right.
  - now apply IH.
Qed.

Lemma force_fetch_first_NoDup (p : list string) :
  NoDup p -> NoDup (force_fetch_first p).
Proof.
  intros Hp. unfold force_fetch_first, py_insert0.
  destruct (py_in "fetch" p) eqn:Hin; simpl negb; cbv iota.
  - destruct (item_is p 0 "fetch"); simpl negb; cbv iota; [assumption|].
    destruct (py_remove_NoDup "fetch" p Hp). now constructor.
  - apply py_in_false in Hin. now constructor.
Qed.

Lemma force_report_last_NoDup (p : list string) :
  NoDup p -> NoDup (force_report_last p).
Proof.
  intros Hp. unfold force_report_last, py_append.
  destruct (py_in "report" p) eqn:Hin; simpl negb; cbv iota.
  - destruct (item_is p (-1) "report"); simpl negb; cbv iota; [assumption|].
    destruct (py_remove_NoDup "report" p Hp). now apply NoDup_snoc.
  - apply py_in_false in Hin. now apply NoDup_snoc.
Qed.

Lemma force_evaluate_last_NoDup (p : list string) :
  NoDup p -> NoDup (force_evaluate_last p).
Proof.
  intros Hp. unfold force_evaluate_last, py_append.
  destruct (py_in "evaluate" p) eqn:Hin.
  - destruct (py_remove_NoDup "evaluate" p Hp). now apply NoDup_snoc.
  - apply py_in_false in Hin. now apply NoDup_snoc.
Qed.

Lemma normalize_plan_NoDup (p : list string) :
  NoDup p -> NoDup (normalize_plan p).
Proof.
  intros Hp. unfold normalize_plan.
  now apply force_evaluate_last_NoDup, force_report_last_NoDup,
    force_fetch_first_NoDup.
Qed.

End NormalizeKeeps.

(** X1. The normalization neither drops, adds nor reorders the steps other
    than fetch, report and evaluate: they come out as the generator listed
    them. *)
Theorem normalize_keeps_other_steps (new_plan : list string) :
  filter (fun s => negb (py_in s ["fetch"; "report"; "evaluate"]))
         (normalize_plan new_plan)
  = filter (fun s => negb (py_in s ["fetch"; "report"; "evaluate"]))
           new_plan.
Proof.
  remember (fun s => negb (py_in s ["fetch"; "report"; "evaluate"])) as f
    eqn:Ef.
  assert (Hf : f "fetch" = false) by (now rewrite Ef).
  assert (Hr : f "report" = false) by (now rewrite Ef).
  assert (He : f "evaluate" = false) by (now rewrite Ef).
  clear Ef.
  unfold normalize_plan.
  assert (H3 : forall p, filter f (force_evaluate_last p) = filter f p).
  { intros p. unfold force_evaluate_last, py_append.
    rewrite (filter_snoc_out f _ _ He).
    destruct (py_in "evaluate" p); [now apply filter_py_remove | reflexivity]. }
  assert (H2 : forall p, filter f (force_report_last p) = filter f p).
  { intros p. unfold force_report_last, py_append.
    destruct (negb (py_in "report" p)); [now apply filter_snoc_out|].
    destruct (negb (item_is p (-1) "report")); [|reflexivity].
    rewrite (filter_snoc_out f _ _ Hr). now apply filter_py_remove. }
  assert (H1 : forall p, filter f (force_fetch_first p) = filter f p).
  { intros p. unfold force_fetch_first, py_insert0.
    destruct (negb (py_in "fetch" p)); [simpl; now rewrite Hf|].
    destruct (negb (item_is p 0 "fetch")); [|reflexivity].
    simpl. rewrite Hf. now apply filter_py_remove. }
  now rewrite H3, H2, H1.
Qed.

(** X2. A step list without repeated steps stays without repeated steps
    under the normalization. *)
Theorem normalize_keeps_plan_duplicate_free (new_plan : list string) :
  NoDup new_plan -> NoDup (normalize_plan new_plan).
Proof. apply normalize_plan_NoDup. Qed.

Lemma normalize_keeps_plan_duplicate_free_witness :
  NoDup (normalize_plan ["chart"; "evaluate"; "report"; "fetch"]).
Proof.
  apply (normalize_keeps_plan_duplicate_free
           ["chart"; "evaluate"; "report"; "fetch"]).
  repeat constructor; simpl; intuition discriminate.
Defined.

(** X3. On a step list without repeated steps the normalization is
    idempotent: normalizing its result again changes nothing. *)
Theorem normalize_twice_is_once (new_plan : list string) :
  NoDup new_plan ->
  normalize_plan (normalize_plan new_plan) = normalize_plan new_plan.
Proof.
  intros Hp. apply normalize_plan_NoDup in Hp.
  destruct (normalize_plan_shape new_plan) as [q Hq]. rewrite Hq in *.
  inversion Hp as [|? ? _ Hnd]; subst.
  apply normalize_fixed_point; intros Hin;
    apply (NoDup_app_disjoint _ _ _ Hnd Hin); simpl; tauto.
Qed.

Lemma normalize_twice_is_once_witness :
  normalize_plan (normalize_plan ["chart"; "evaluate"; "report"; "fetch"])
  = normalize_plan ["chart"; "evaluate"; "report"; "fetch"].
Proof.
  apply (normalize_twice_is_once ["chart"; "evaluate"; "report"; "fetch"]).
  repeat constructor; simpl; intuition discriminate.
Defined.

(** ** The Router's answers *)

Section RouterShape.

Lemma py_get_nat {A : Type} (l : list A) (i : nat) :
  py_get l (Z.of_nat i) = nth_error l i.
Proof.
  unfold py_get. destruct (Z.leb_spec 0 (Z.of_nat i)); [|lia].
  now rewrite Nat2Z.id.
Qed.

(** With an approved plan, nothing awaited and a step at the cursor, the
    answer is the entry of [node_map] for that step. *)
Lemma route_at_step (state : State) (p : list string) (step : string) :
  awaiting_human state = false ->
  plan_approved state = true ->
  plan state = Some p ->
  nth_error p (current_step state) = Some step ->
  _route_from_supervisor state = dict_get node_map step "supervisor".
Proof.
  intros Hw Ha Hp Hs. unfold _route_from_supervisor. cbv zeta.
  rewrite Hw, Ha, Hp. unfold plan_len, plan_item.
  rewrite py_get_nat, Hs.
  assert (Hlt : current_step state < length p)
    by (apply nth_error_Some; congruence).
  destruct p as [|x t]; [simpl in Hlt; lia|].
  change (truthy_plan (Some (x :: t))) with true. cbn [andb negb].
  replace (length (x :: t) <=? current_step state)%nat with false
    by (symmetry; now apply Nat.leb_gt).
  replace (current_step state <? length (x :: t))%nat with true
    by (symmetry; now apply Nat.ltb_lt).
  reflexivity.
Qed.

(** Every other state is sent to the Approval Gate. *)
Lemma route_cases (state : State) :
  _route_from_supervisor state = "human_approval"
  \/ (awaiting_human state = false
      /\ plan_approved state = true
      /\ exists p step,
           plan state = Some p
           /\ nth_error p (current_step state) = Some step).
Proof.
  destruct (awaiting_human state) eqn:Hw;
    [left; unfold _route_from_supervisor; now rewrite Hw|].
  destruct (plan_approved state) eqn:Ha.
  - destruct (plan state) as [p|] eqn:Hp.
    + destruct (nth_error p (current_step state)) as [step|] eqn:Hs.
      * right. repeat split. eauto.
      * left. unfold _route_from_supervisor. cbv zeta. rewrite Hw, Ha, Hp.
        apply nth_error_None in Hs. unfold plan_len.
        destruct p as [|x t]; [reflexivity|].
        change (truthy_plan (Some (x :: t))) with true. cbn [andb negb].
        apply Nat.leb_le in Hs. now rewrite Hs.
    + left. unfold _route_from_supervisor. now rewrite Hw, Ha, Hp.
  - left. unfold _route_from_supervisor. rewrite Hw, Ha.
    now destruct (truthy_plan (plan state)).
Qed.

Lemma node_map_answer (step : string) :
  (In step worker_names /\ dict_get node_map step "supervisor" = step)
  \/ (~ In step worker_names
      /\ dict_get node_map step "supervisor" = "supervisor").
Proof.
  destruct (in_dec string_dec step worker_names) as [Hin|Hout].
  - left. split; [assumption | now apply node_map_names_itself].
  - right. split; [assumption | now apply node_map_default].
Qed.

Lemma worker_has_edge (step : string) :
  In step worker_names -> edge_target supervisor_edges step = Some step.
Proof.
  intros Hin. repeat (destruct Hin as [<-|Hin]; [reflexivity|]).
  destruct Hin.
Qed.

End RouterShape.

(** X4. The Router names a worker only for a state that awaits nobody and
    whose plan is approved, and then it is the step at the cursor: no
    worker is scheduled during a pause or before the approval. *)
Theorem router_names_worker_only_inside_approved_plan (state : State) :
  In (_route_from_supervisor state) worker_names ->
  awaiting_human state = false
  /\ plan_approved state = true
  /\ exists p,
       plan state = Some p
       /\ current_step state < length p
       /\ nth_error p (current_step state)
          = Some (_route_from_supervisor state).
Proof.
  intros Hin.
  destruct (route_cases state) as [Hgate|(Hw & Ha & p & step & Hp & Hs)].
  - rewrite Hgate in Hin. simpl in Hin. intuition discriminate.
  - rewrite (route_at_step state p step Hw Ha Hp Hs) in Hin |- *.
    destruct (node_map_answer step) as [[_ ->]|[_ Hsup]].
    + repeat split; try assumption. exists p. repeat split; try assumption.
      apply nth_error_Some. congruence.
    + rewrite Hsup in Hin. simpl in Hin. intuition discriminate.
Qed.

Lemma router_names_worker_only_inside_approved_plan_witness :
  awaiting_human (state_with_plan canonical_plan true 4 false) = false
  /\ plan_approved (state_with_plan canonical_plan true 4 false) = true.
Proof.
  destruct (router_names_worker_only_inside_approved_plan
              (state_with_plan canonical_plan true 4 false))
    as (Hw & Ha & _).
  - simpl. tauto.
  - split; assumption.
Defined.

(** X5. The Router's answer has no edge in the table registered for the
    supervisor exactly when the plan is approved, nothing is awaited and
    the step at the cursor is not one of the seven worker names: the
    Router then answers with the supervisor's name, which has no edge. *)
Theorem router_answer_without_edge (state : State) :
  edge_target supervisor_edges (_route_from_supervisor state) = None
  <-> (awaiting_human state = false
       /\ plan_approved state = true
       /\ exists p step,
            plan state = Some p
            /\ nth_error p (current_step state) = Some step
            /\ ~ In step worker_names).
Proof.
  split.
  - intros Hnone.
    destruct (route_cases state) as [Hgate|(Hw & Ha & p & step & Hp & Hs)].
    + rewrite Hgate in Hnone. discriminate.
    + rewrite (route_at_step state p step Hw Ha Hp Hs) in Hnone.
      destruct (node_map_answer step) as [[Hin Heq]|[Hout _]].
      * rewrite Heq, (worker_has_edge step Hin) in Hnone. discriminate.
      * repeat split; try assumption. eauto.
  - intros (Hw & Ha & p & step & Hp & Hs & Hout).
    rewrite (route_at_step state p step Hw Ha Hp Hs).
    now rewrite (node_map_default step Hout).
Qed.

Lemma router_answer_without_edge_witness :
  edge_target supervisor_edges
    (_route_from_supervisor
       (state_with_plan ["fetch"; "summarize"; "report"; "evaluate"]
          true 1 false))
  = None.
Proof.
  apply (router_answer_without_edge
           (state_with_plan ["fetch"; "summarize"; "report"; "evaluate"]
              true 1 false)).
  repeat split. exists ["fetch"; "summarize"; "report"; "evaluate"].
  exists "summarize". repeat split. simpl. intuition discriminate.
Defined.

(** ** The supervisor between pauses *)

Section SupervisorFlow.

(** With an approved plan and the cursor inside it the supervisor
    announces the step at the cursor. *)
Lemma supervisor_progress (state : State)
  (intent_reply : Reply QueryContext) (plan_reply : Reply PlanData)
  (p : list string) (step : string) :
  plan state = Some p ->
  plan_approved state = true ->
  nth_error p (current_step state) = Some step ->
  supervisor_node state intent_reply plan_reply
  = {| u_messages :=
         [AIMessage ("⏳ 正在執行："
                     ++ dict_get progress_step_names step step
                     ++ "...")%string];
       u_user_input := None; u_plan := None; u_plan_approved := None;
       u_current_step := Some (current_step state);
       u_awaiting_human := Some false;
       u_interrupt_message := None;
       u_raw_data := None; u_dataframe_summary := None;
       u_query_context := None |}.
Proof.
  intros Hp Ha Hs. unfold supervisor_node. cbv zeta. rewrite Hp, Ha.
  assert (Hlt : current_step state < length p)
    by (apply nth_error_Some; congruence).
  destruct p as [|x t]; [simpl in Hlt; lia|].
  change (truthy_plan (Some (x :: t))) with true. cbn [andb negb].
  unfold plan_len, plan_item.
  replace (current_step state <? length (x :: t))%nat with true
    by (symmetry; now apply Nat.ltb_lt).
  now rewrite py_get_nat, Hs.
Qed.

(** After an approval word the gate leaves everything but the two flags. *)
Lemma gate_approval_state (state : State) (response : string) :
  is_approval response = true ->
  apply_update state (human_approval_node state response)
  = {| messages := messages state ++ [];
       user_input := user_input state;
       plan := plan state;
       plan_approved := true;
       current_step := current_step state;
       awaiting_human := false;
       interrupt_message := interrupt_message state;
       sheet_url := sheet_url state;
       raw_data := raw_data state;
       dataframe_summary := dataframe_summary state;
       query_context := query_context state |}.
Proof.
  intros Hok. unfold human_approval_node. rewrite Hok. reflexivity.
Qed.

(** After any other reply the plan and the stored context are gone. *)
Lemma gate_revision_state (state : State) (response : string) :
  is_approval response = false ->
  apply_update state (human_approval_node state response)
  = {| messages := messages state ++ [];
       user_input := response;
       plan := None;
       plan_approved := false;
       current_step := current_step state;
       awaiting_human := false;
       interrupt_message := interrupt_message state;
       sheet_url := sheet_url state;
       raw_data := raw_data state;
       dataframe_summary := dataframe_summary state;
       query_context := None |}.
Proof.
  intros Hno. unfold human_approval_node. rewrite Hno. reflexivity.
Qed.

End SupervisorFlow.

(** X6. With a plan present the supervisor never writes the plan, the
    stored context, the user's text or the data, and its update does not
    depend on what the model would reply: the model is consulted only when
    there is no plan. *)
Theorem supervisor_leaves_existing_plan (state : State)
  (intent_reply intent_reply' : Reply QueryContext)
  (plan_reply plan_reply' : Reply PlanData) :
  truthy_plan (plan state) = true ->
  let u := supervisor_node state intent_reply plan_reply in
  u_plan u = None
  /\ u_query_context u = None
  /\ u_user_input u = None
  /\ u_raw_data u = None
  /\ u_dataframe_summary u = None
  /\ plan (apply_update state u) = plan state
  /\ u = supervisor_node state intent_reply' plan_reply'.
Proof.
  intros Hp. cbv zeta. unfold supervisor_node. cbv zeta. rewrite Hp.
  cbn [negb andb].
  destruct (negb (plan_approved state)); [repeat split|].
  destruct (plan_approved state
            && (current_step state <? plan_len (plan state))%nat);
    repeat split.
Qed.

Lemma supervisor_leaves_existing_plan_witness :
  u_plan (supervisor_node (state_with_plan canonical_plan true 2 false)
            Unparsable Unparsable)
  = None.
Proof.
  apply (supervisor_leaves_existing_plan
           (state_with_plan canonical_plan true 2 false)
           Unparsable Unparsable Unparsable Unparsable).
  reflexivity.
Defined.

(** X7. Approving a freshly synthesized plan schedules the fetch worker:
    after the supervisor's new-plan branch and an approval word at the
    gate, the plan is approved, nothing is awaited, the cursor is 0 and the
    Router names fetch. *)
Theorem approving_new_plan_starts_fetch (state : State)
  (intent_reply intent_reply' : Reply QueryContext)
  (plan_reply plan_reply' : Reply PlanData) (response : string) :
  truthy_plan (plan state) = false ->
  needs_clarification (resolve_query_context state intent_reply) = false ->
  is_approval response = true ->
  let paused :=
    apply_update state (supervisor_node state intent_reply plan_reply) in
  let after := resume paused response intent_reply' plan_reply' in
  snd after = Some "fetch"
  /\ plan (fst after) = Some (normalize_plan (fst (raw_plan plan_reply)))
  /\ plan_approved (fst after) = true
  /\ awaiting_human (fst after) = false
  /\ current_step (fst after) = 0.
Proof.
  intros Hplan Hclar Hok. cbv zeta.
  rewrite (supervisor_new_plan _ _ _ Hplan Hclar). cbv zeta.
  destruct (normalize_plan_shape (fst (raw_plan plan_reply))) as [q Hq].
  rewrite Hq. unfold resume.
  rewrite route_from_human_constant.
  change (edge_target human_edges "supervisor") with (Some "supervisor").
  cbv iota. rewrite (gate_approval_state _ _ Hok).
  match goal with
  | |- context [supervisor_node ?s _ _] =>
      rewrite (supervisor_progress s intent_reply' plan_reply'
                 ("fetch" :: q ++ ["report"; "evaluate"]) "fetch"
                 eq_refl eq_refl eq_refl)
  end.
  cbn [fst snd].
  match goal with
  | |- context [_route_from_supervisor ?s] =>
      rewrite (route_at_step s ("fetch" :: q ++ ["report"; "evaluate"])
                 "fetch" eq_refl eq_refl eq_refl eq_refl)
  end.
  repeat split.
Qed.

Lemma approving_new_plan_starts_fetch_witness :
  snd (resume
         (apply_update fresh_state
            (supervisor_node fresh_state Unparsable Unparsable))
         "同意" Unparsable Unparsable)
  = Some "fetch".
Proof.
  apply (approving_new_plan_starts_fetch fresh_state Unparsable Unparsable
           Unparsable Unparsable "同意");
    reflexivity.
Defined.

(** X8. A reply that is not an approval word, given at any pause, makes
    the supervisor synthesize anew: the old plan and the stored context are
    dropped, the reply becomes the user's text, the classifier and the
    generator are consulted again, and (when the classifier asks nothing)
    the thread pauses at the gate with the new plan, unapproved, cursor at
    0. *)
Theorem revision_reply_synthesizes_new_plan (state : State)
  (response : string)
  (intent_reply : Reply QueryContext) (plan_reply : Reply PlanData) :
  is_approval response = false ->
  match intent_reply with
  | Parsed qc => needs_clarification qc
  | Unparsable => false
  end = false ->
  let after := resume state response intent_reply plan_reply in
  snd after = Some "human_approval"
  /\ user_input (fst after) = response
  /\ plan (fst after) = Some (normalize_plan (fst (raw_plan plan_reply)))
  /\ query_context (fst after)
     = Some match intent_reply with
            | Parsed qc => qc
            | Unparsable => default_query_context
            end
  /\ plan_approved (fst after) = false
  /\ current_step (fst after) = 0
  /\ awaiting_human (fst after) = true.
Proof.
  intros Hno Hclar. cbv zeta. unfold resume.
  rewrite route_from_human_constant.
  change (edge_target human_edges "supervisor") with (Some "supervisor").
  cbv iota. rewrite (gate_revision_state _ _ Hno).
  match goal with
  | |- context [supervisor_node ?s _ _] =>
      assert (Hres : resolve_query_context s intent_reply
                     = match intent_reply with
                       | Parsed qc => qc
                       | Unparsable => default_query_context
                       end) by reflexivity;
      assert (Hc : needs_clarification
                     (resolve_query_context s intent_reply) = false)
        by (rewrite Hres; now destruct intent_reply);
      rewrite (supervisor_new_plan s intent_reply plan_reply eq_refl Hc);
      rewrite Hres
  end.
  cbv zeta. cbn [fst snd]. repeat split.
Qed.

Lemma revision_reply_synthesizes_new_plan_witness :
  plan (fst (resume (state_with_plan canonical_plan true 7 true)
               "只要圖表" Unparsable
               (Parsed {| pd_plan := Some ["fetch"; "chart"];
                          pd_explanation := None |})))
  = Some ["fetch"; "chart"; "report"; "evaluate"].
Proof.
  apply (revision_reply_synthesizes_new_plan
           (state_with_plan canonical_plan true 7 true) "只要圖表"
           Unparsable
           (Parsed {| pd_plan := Some ["fetch"; "chart"];
                      pd_explanation := None |}));
    reflexivity.
Defined.

(** X9. A clarification question answered with an approval word is not
    taken as an answer: the user's text stays as it was, the classifier is
    not asked again, and the supervisor generates a plan under the stored
    context, whose clarification flag it had cleared when it asked. *)
Theorem clarification_answered_by_approval_word (state : State)
  (intent_reply intent_reply' : Reply QueryContext)
  (plan_reply plan_reply' : Reply PlanData) (response : string) :
  truthy_plan (plan state) = false ->
  needs_clarification (resolve_query_context state intent_reply) = true ->
  is_approval response = true ->
  let asked :=
    apply_update state (supervisor_node state intent_reply plan_reply) in
  let after := resume asked response intent_reply' plan_reply' in
  awaiting_human asked = true
  /\ plan asked = plan state
  /\ user_input (fst after) = user_input state
  /\ plan (fst after) = Some (normalize_plan (fst (raw_plan plan_reply')))
  /\ (exists qc,
        query_context (fst after) = Some qc
        /\ needs_clarification qc = false
        /\ intent qc = intent (resolve_query_context state intent_reply)
        /\ time_range qc
           = time_range (resolve_query_context state intent_reply))
  /\ snd after = Some "human_approval".
Proof.
  intros Hplan Hclar Hok. cbv zeta.
  assert (Hask : supervisor_node state intent_reply plan_reply
                 = clarification_update
                     (resolve_query_context state intent_reply)).
  { unfold supervisor_node. cbv zeta. now rewrite Hplan, Hclar. }
  rewrite Hask. unfold resume.
  rewrite route_from_human_constant.
  change (edge_target human_edges "supervisor") with (Some "supervisor").
  cbv iota. rewrite (gate_approval_state _ _ Hok).
  match goal with
  | |- context [supervisor_node ?s _ _] =>
      rewrite (supervisor_new_plan s intent_reply' plan_reply' Hplan eq_refl)
  end.
  cbv zeta. cbn [fst snd].
  repeat split; try reflexivity.
  eexists. repeat split.
Qed.

Lemma clarification_answered_by_approval_word_witness :
  user_input
    (fst (resume
            (apply_update fresh_state
               (supervisor_node fresh_state
                  (Parsed {| intent := "full_analysis"; time_range := None;
                             chart_types := [];
                             needs_clarification := true;
                             clarification_question :=
                               Some "要分析哪一段時間？" |})
                  Unparsable))
            "好" Unparsable Unparsable))
  = "".
Proof.
  apply (clarification_answered_by_approval_word fresh_state
           (Parsed {| intent := "full_analysis"; time_range := None;
                      chart_types := []; needs_clarification := true;
                      clarification_question := Some "要分析哪一段時間？" |})
           Unparsable Unparsable Unparsable "好");
    reflexivity.
Defined.

(** ** Runs of the graph *)

Section RunFacts.

(** An update without control keys leaves the control fields. *)
Lemma apply_keeps_control (s : State) (u : Update) :
  writes_no_control u = true ->
  plan (apply_update s u) = plan s
  /\ plan_approved (apply_update s u) = plan_approved s
  /\ current_step (apply_update s u) = current_step s
  /\ awaiting_human (apply_update s u) = awaiting_human s
  /\ user_input (apply_update s u) = user_input s
  /\ query_context (apply_update s u) = query_context s
  /\ interrupt_message (apply_update s u) = interrupt_message s.
Proof.
  unfold writes_no_control, apply_update. simpl.
  destruct (u_user_input u), (u_plan u), (u_plan_approved u),
    (u_current_step u), (u_awaiting_human u), (u_interrupt_message u),
    (u_query_context u); try discriminate.
  intros _. repeat split.
Qed.


Variable worker : string -> State -> Update.
Variable intent_reply : Reply QueryContext.
Variable plan_reply : Reply PlanData.


Hypothesis worker_control :
  forall node s, writes_no_control (worker node s) = true.
Hypothesis fetch_leaves_data :
  forall s, raw_data (apply_update s (worker "fetch" s)) <> None.



End RunFacts.



(** ** What the Fetch worker returns *)

Section FetchReturns.

Variable lib : Collaborators.

Lemma failure_update_shape (text : string) :
  writes_no_control (failure_update text) = true
  /\ length (u_messages (failure_update text)) = 1
  /\ u_raw_data (failure_update text) = Some None
  /\ u_dataframe_summary (failure_update text) = Some None.
Proof. repeat split. Qed.

Lemma success_update_shape (rows : list Row) (desc : string) :
  rows <> [] ->
  writes_no_control (success_update lib rows desc) = true
  /\ length (u_messages (success_update lib rows desc)) = 1
  /\ exists summary,
       u_raw_data (success_update lib rows desc) = Some (Some rows)
       /\ u_dataframe_summary (success_update lib rows desc)
          = Some (Some summary).
Proof. intros _. repeat split. eexists. split; reflexivity. Qed.

Lemma is_empty_false {A : Type} (l : list A) : is_empty l = false -> l <> [].
Proof. destruct l; [discriminate | discriminate]. Qed.

(** When no pattern matches and the text does not say half a year, the
    parser answers with no range, without calling [int] or pandas. *)
Lemma parse_time_range_unrecognised (tr : string) :
  re_match lib quarter_pattern (strip_upper lib tr) = None ->
  re_match lib year_pattern (strip_upper lib tr) = None ->
  re_match lib month_pattern (strip_upper lib tr) = None ->
  re_search lib recent_pattern tr = None ->
  contains "半年" tr = false ->
  _parse_time_range lib tr = Returns None.
Proof.
  intros Hq Hy Hm Hs Hh. unfold _parse_time_range. rewrite Hq.
  unfold parse_year. rewrite Hy. unfold parse_month. rewrite Hm.
  unfold parse_recent_months. rewrite Hs.
  unfold parse_half_year. now rewrite Hh.
Qed.

End FetchReturns.

(** Every update of the Fetch worker, by the branch that returns it. *)
Lemma fetch_returns_shape (lib : Collaborators) (state : State)
  (u : Update) :
  fetch_node lib state = Returns u ->
  writes_no_control u = true
  /\ length (u_messages u) = 1
  /\ ((u_raw_data u = Some None /\ u_dataframe_summary u = Some None)
      \/ exists rows summary,
           rows <> []
           /\ u_raw_data u = Some (Some rows)
           /\ u_dataframe_summary u = Some (Some summary)).
Proof.
  assert (Hfail : forall text,
             Returns (failure_update text) = Returns u ->
             writes_no_control u = true
             /\ length (u_messages u) = 1
             /\ ((u_raw_data u = Some None
                  /\ u_dataframe_summary u = Some None)
                 \/ exists rows summary,
                      rows <> []
                      /\ u_raw_data u = Some (Some rows)
                      /\ u_dataframe_summary u = Some (Some summary))).
  { intros text H. injection H as <-. repeat split. left. now split. }
  assert (Hok : forall rows desc,
             rows <> [] ->
             Returns (success_update lib rows desc) = Returns u ->
             writes_no_control u = true
             /\ length (u_messages u) = 1
             /\ ((u_raw_data u = Some None
                  /\ u_dataframe_summary u = Some None)
                 \/ exists rows summary,
                      rows <> []
                      /\ u_raw_data u = Some (Some rows)
                      /\ u_dataframe_summary u = Some (Some summary))).
  { intros rows desc Hne H. injection H as <-. repeat split. right.
    exists rows. eexists. repeat split. exact Hne. }
  unfold fetch_node.
  destruct (negb (truthy_str (sheet_url state))); [apply Hfail|].
  destruct (read_sheet lib _) as [rows|[] e]; try apply Hfail.
  destruct (is_empty rows) eqn:Hrows; [apply Hfail|].
  apply is_empty_false in Hrows.
  destruct (truthy_str _ && has_column "回饋日期" rows);
    [|now apply Hok].
  destruct (_parse_time_range lib _) as [[[a b]|]|cls text]; simpl.
  - destruct (is_empty (select_range lib a b rows)) eqn:Hsel;
      [apply Hfail|]. apply Hok. now apply is_empty_false.
  - destruct (is_empty rows) eqn:Hr; [apply Hfail | now apply Hok].
  - discriminate.
Qed.

(** X11. Whatever the Fetch worker returns is one message plus the two
    data keys and no control key, and the data it stores is never an empty
    list: raw_data and dataframe_summary are both None, or raw_data is a
    list with at least one row and the summary is a text. *)
Theorem fetch_update_shape (lib : Collaborators) (state : State)
  (u : Update) :
  fetch_node lib state = Returns u ->
  writes_no_control u = true
  /\ length (u_messages u) = 1
  /\ ((u_raw_data u = Some None /\ u_dataframe_summary u = Some None)
      \/ exists rows summary,
           rows <> []
           /\ u_raw_data u = Some (Some rows)
           /\ u_dataframe_summary u = Some (Some summary)).
Proof. apply fetch_returns_shape. Qed.

Lemma fetch_update_shape_witness :
  writes_no_control (failure_update msg_no_url) = true.
Proof.
  apply (fetch_update_shape sample_collaborators state_stale_data
           (failure_update msg_no_url)).
  reflexivity.
Defined.

(** X12. A fetch that finds no data ends the run of the plan, also when an
    earlier run had left data in the state: its update binds raw_data to
    None, the sequencer then moves the cursor from the fetch step to the
    length of the plan, and the supervisor suspends the thread at the
    completion pause without any further worker. *)
Theorem failed_fetch_ends_the_run (lib : Collaborators) (state : State)
  (u : Update) (p : list string)
  (intent_reply : Reply QueryContext) (plan_reply : Reply PlanData) :
  fetch_node lib state = Returns u ->
  u_raw_data u = Some None ->
  plan state = Some p ->
  plan_approved state = true ->
  nth_error p (current_step state) = Some "fetch" ->
  let s1 := apply_update state u in
  let s2 := apply_update s1 (step_complete_node s1) in
  let s3 := apply_update s2 (supervisor_node s2 intent_reply plan_reply) in
  raw_data s1 = None
  /\ current_step s2 = length p
  /\ plan s3 = Some p
  /\ awaiting_human s3 = true
  /\ interrupt_message s3 = Some completion_message
  /\ _route_from_supervisor s3 = "human_approval".
Proof.
  intros Hret Hraw Hp Ha Hs. cbv zeta.
  destruct (fetch_returns_shape lib state u Hret) as (Hctl & _ & _).
  destruct (apply_keeps_control state u Hctl) as (Hp1 & Ha1 & Hc1 & _).
  assert (Hr1 : raw_data (apply_update state u) = None)
    by (unfold apply_update; simpl; now rewrite Hraw).
  remember (apply_update state u) as s1 eqn:Es1. clear Es1.
  assert (Hlt : current_step state < length p)
    by (apply nth_error_Some; congruence).
  assert (Hsc : step_complete_node s1
                = {| u_messages := []; u_user_input := None; u_plan := None;
                     u_plan_approved := None;
                     u_current_step := Some (length p);
                     u_awaiting_human := None; u_interrupt_message := None;
                     u_raw_data := None; u_dataframe_summary := None;
                     u_query_context := None |}).
  { unfold step_complete_node. cbv zeta.
    rewrite Hp1, Hp, Hc1, Hr1. unfold plan_len, plan_item.
    rewrite py_get_nat, Hs.
    destruct p as [|x t]; [simpl in Hlt; lia|].
    change (truthy_plan (Some (x :: t))) with true.
    apply Nat.ltb_lt in Hlt. now rewrite Hlt. }
  rewrite Hsc.
  match goal with
  | |- context [supervisor_node ?s _ _] =>
      assert (H2 : plan s = Some p /\ plan_approved s = true
                   /\ current_step s = length p)
        by (simpl; repeat split; congruence);
      remember s as s2 eqn:Es2; clear Es2
  end.
  destruct H2 as (Hp2 & Ha2 & Hc2).
  assert (Htruthy : truthy_plan (plan s2) = true)
    by (rewrite Hp2; destruct p; [simpl in Hlt; lia | reflexivity]).
  rewrite (supervisor_completion s2 intent_reply plan_reply Htruthy Ha2)
    by (rewrite Hp2, Hc2; simpl; lia).
  repeat split; try assumption.
Qed.

Lemma failed_fetch_ends_the_run_witness :
  raw_data (apply_update state_stale_data (failure_update msg_no_url)) = None
  /\ current_step
       (apply_update
          (apply_update state_stale_data (failure_update msg_no_url))
          (step_complete_node
             (apply_update state_stale_data (failure_update msg_no_url))))
     = 7.
Proof.
  destruct (failed_fetch_ends_the_run sample_collaborators state_stale_data
              (failure_update msg_no_url) canonical_plan
              Unparsable Unparsable)
    as (H1 & H2 & _); try reflexivity.
  split; assumption.
Defined.

(** X13. A time range that none of the parser's patterns recognises is
    ignored without a word: the worker keeps every row the reader
    returned and its summary carries no note of a filter. *)
Theorem unrecognised_time_range_keeps_all_rows (lib : Collaborators)
  (state : State) (url tr : string) (qc : QueryContext)
  (rows : list Row) :
  sheet_url state = Some url -> url <> "" ->
  read_sheet lib url = Returns rows -> rows <> [] ->
  query_context state = Some qc -> time_range qc = Some tr ->
  re_match lib quarter_pattern (strip_upper lib tr) = None ->
  re_match lib year_pattern (strip_upper lib tr) = None ->
  re_match lib month_pattern (strip_upper lib tr) = None ->
  re_search lib recent_pattern tr = None ->
  contains "半年" tr = false ->
  fetch_node lib state = Returns (success_update lib rows "").
Proof.
  intros Hu Hne Hr Hrows Hq Ht Hq1 Hy Hm Hs Hh.
  unfold fetch_node. rewrite Hu.
  destruct url as [|c url]; [congruence|]. simpl. rewrite Hr.
  destruct rows as [|r rows]; [congruence|]. simpl is_empty. cbv iota.
  rewrite Hq, Ht.
  destruct (truthy_str (Some tr) && has_column "回饋日期" (r :: rows));
    [|reflexivity].
  now rewrite (parse_time_range_unrecognised lib tr Hq1 Hy Hm Hs Hh).
Qed.

Lemma unrecognised_time_range_keeps_all_rows_witness :
  fetch_node unmatched_collaborators state_last_summer
  = Returns (success_update unmatched_collaborators sample_rows "").
Proof.
  apply (unrecognised_time_range_keeps_all_rows unmatched_collaborators
           state_last_summer "1AbC" "去年夏天"
           {| intent := "specific_query";
              time_range := Some "去年夏天";
              chart_types := []; needs_clarification := false;
              clarification_question := None |} sample_rows);
    solve [reflexivity | discriminate].
Defined.

(** ** Splitting a reply at its fences *)

Section SplitFacts.

Local Open Scope string_scope.

Lemma prefix_drop (p s : string) :
  String.prefix p s = true -> s = p ++ str_drop (String.length p) s.
Proof.
  revert s. induction p as [|a p IH]; intros s H.
  - reflexivity.
  - destruct s as [|b s]; simpl in H; [discriminate|].
    destruct (Ascii.ascii_dec a b) as [->|]; [|discriminate].
    simpl. f_equal. now apply IH.
Qed.

Lemma prefix_append (p s t : string) :
  String.prefix p s = true -> String.prefix p (s ++ t) = true.
Proof.
  revert s. induction p as [|a p IH]; intros s H.
  - now destruct (s ++ t).
  - destruct s as [|b s]; simpl in H; [discriminate|]. simpl.
    destruct (Ascii.ascii_dec a b); [now apply IH | discriminate].
Qed.


Lemma prefix_of_empty (p : string) : p <> "" -> String.prefix p "" = false.
Proof. destruct p; [congruence | reflexivity]. Qed.


(** [str_partition] finds the leftmost occurrence: the text splits around
    the separator and the part before holds no occurrence. *)
Lemma str_partition_spec (sep s before after : string) :
  sep <> "" ->
  str_partition sep s = Some (before, after) ->
  s = before ++ sep ++ after /\ str_in sep before = false.
Proof.
  intros Hsep. revert before after.
  induction s as [|c s IH]; intros before after H.
  - cbn [str_partition] in H. rewrite (prefix_of_empty sep Hsep) in H.
    discriminate.
  - cbn [str_partition] in H.
    destruct (String.prefix sep (String c s)) eqn:Hp.
    + injection H as <- <-. split.
      * now apply prefix_drop.
      * cbn [str_in]. now rewrite (prefix_of_empty sep Hsep).
    + destruct (str_partition sep s) as [[b a]|]; [|discriminate].
      injection H as <- <-.
      destruct (IH b a eq_refl) as [Hs Hin]. split.
      * simpl. now rewrite <- Hs.
      * cbn [str_in]. rewrite Hin, orb_false_r.
        destruct (String.prefix sep (String c b)) eqn:Hpb; [|reflexivity].
        apply (prefix_append _ _ (sep ++ a)) in Hpb.
        change (String c b ++ sep ++ a) with (String c (b ++ sep ++ a))
          in Hpb.
        rewrite <- Hs in Hpb. congruence.
Qed.

Lemma str_partition_none (sep s : string) :
  str_partition sep s = None <-> str_in sep s = false.
Proof.
  induction s as [|c s IH]; cbn [str_partition str_in].
  - destruct (String.prefix sep ""); simpl; split; congruence.
  - destruct (String.prefix sep (String c s)); simpl.
    + split; discriminate.
    + rewrite <- IH. destruct (str_partition sep s) as [[b a]|];
        split; congruence.
Qed.

Lemma split_fuel_head (fuel : nat) (sep s : string) :
  nth_error (split_fuel fuel sep s) 0 = Some (head_piece sep s).
Proof.
  unfold head_piece. destruct fuel; simpl;
    destruct (str_partition sep s) as [[b a]|]; reflexivity.
Qed.

Lemma py_split_first (sep s : string) :
  nth_error (py_split sep s) 0 = Some (head_piece sep s).
Proof. apply split_fuel_head. Qed.

(** The second piece exists as soon as the separator occurs. *)
Lemma py_split_second (sep s before after : string) :
  sep <> "" ->
  str_partition sep s = Some (before, after) ->
  nth_error (py_split sep s) 1 = Some (head_piece sep after).
Proof.
  intros Hsep Hp. unfold py_split.
  destruct s as [|c s].
  - cbn [str_partition] in Hp. rewrite (prefix_of_empty sep Hsep) in Hp.
    discriminate.
  - cbn [String.length split_fuel]. rewrite Hp.
    cbn [nth_error]. apply split_fuel_head.
Qed.

Lemma head_piece_no_sep (sep s : string) :
  sep <> "" -> str_in sep (head_piece sep s) = false.
Proof.
  intros Hsep. unfold head_piece.
  destruct (str_partition sep s) as [[b a]|] eqn:Hp.
  - now destruct (str_partition_spec sep s b a Hsep Hp).
  - now apply str_partition_none.
Qed.

Lemma between_fences_total (opening content : string) :
  opening <> "" ->
  str_in opening content = true ->
  exists text,
    between_fences opening content = Some text
    /\ str_in fence text = false.
Proof.
  intros Hne Hin. unfold between_fences.
  destruct (str_partition opening content) as [[b a]|] eqn:Hp.
  - rewrite (py_split_second opening content b a Hne Hp), py_split_first.
    eexists. split; [reflexivity|]. now apply head_piece_no_sep.
  - apply str_partition_none in Hp. congruence.
Qed.

End SplitFacts.

Section FenceFacts.

Local Open Scope string_scope.

Lemma fence_json_has_fence (s : string) :
  str_in fence_json s = true -> str_in fence s = true.
Proof.
  induction s as [|c s IH]; cbn [str_in].
  - discriminate.
  - intros H. apply orb_true_iff in H. apply orb_true_iff.
    destruct H as [H|H]; [left | right; now apply IH].
    apply prefix_drop in H. rewrite H. reflexivity.
Qed.










End FenceFacts.

(** X14. Taking the JSON out of a reply never raises IndexError: for every
    reply there is a text handed to the parser, that text contains no
    fence, it is the whole reply when the reply has no fence, and the
    reply counts as unparsable only when the parser rejects that text. *)
Theorem extract_fenced_never_fails (content : string) :
  exists text,
    extract_fenced content = Some text
    /\ str_in fence text = false
    /\ (str_in fence content = false -> text = content)
    /\ forall (A : Type) (py_strip : string -> string)
              (json_loads : string -> option A),
         _parse_json_response A py_strip json_loads content
         = match json_loads (py_strip text) with
           | Some a => Parsed a
           | None => Unparsable
           end.
Proof.
  assert (Hparse : forall text,
             extract_fenced content = Some text ->
             forall (A : Type) (py_strip : string -> string)
                    (json_loads : string -> option A),
               _parse_json_response A py_strip json_loads content
               = match json_loads (py_strip text) with
                 | Some a => Parsed a
                 | None => Unparsable
                 end).
  { intros text H A py_strip json_loads.
    unfold _parse_json_response. now rewrite H. }
  unfold extract_fenced in *.
  destruct (str_in fence_json content) eqn:Hj.
  - destruct (between_fences_total fence_json content) as (text & Ht & Hf);
      [discriminate | assumption |].
    exists text. repeat split; try assumption.
    + intros Hno. apply fence_json_has_fence in Hj. congruence.
    + now apply Hparse.
  - destruct (str_in fence content) eqn:Hf.
    + destruct (between_fences_total fence content) as (text & Ht & Hf');
        [discriminate | assumption |].
      exists text. repeat split; try assumption.
      * discriminate.
      * now apply Hparse.
    + exists content. repeat split; try assumption.
      now apply Hparse.
Qed.

Lemma extract_fenced_never_fails_witness :
  exists text,
    extract_fenced "{}" = Some text /\ text = "{}".
Proof.
  destruct (extract_fenced_never_fails "{}") as (text & He & _ & Hsame & _).
  exists text. split; [assumption | now apply Hsame].
Defined.



(** ** The rows of a sheet *)

Section SheetRows.

Lemma dict_set_keys (k v : string) (d : Row) :
  (In k (map fst d) -> map fst (Sheets.dict_set k v d) = map fst d)
  /\ (~ In k (map fst d) ->
      map fst (Sheets.dict_set k v d) = map fst d ++ [k]).
Proof.
  induction d as [|[k' v'] d [IH1 IH2]]; simpl.
  - split; [tauto | reflexivity].
  - destruct (String.eqb_spec k' k) as [->|Hne]; simpl.
    + split; [reflexivity | tauto].
    + split; intros H; f_equal.
      * apply IH1. destruct H; [congruence | assumption].
      * apply IH2. tauto.
Qed.

Lemma dict_set_fresh (k v : string) (d : Row) :
  ~ In k (map fst d) -> Sheets.dict_set k v d = d ++ [(k, v)].
Proof.
  induction d as [|[k' v'] d IH]; simpl; intros H; [reflexivity|].
  destruct (String.eqb_spec k' k) as [->|Hne]; [tauto|].
  f_equal. apply IH. tauto.
Qed.

Lemma fold_dict_set_keys (pairs acc : Row) :
  NoDup (map fst acc) ->
  NoDup (map fst (fold_left
                    (fun d kv => Sheets.dict_set (fst kv) (snd kv) d)
                    pairs acc))
  /\ forall k,
       In k (map fst (fold_left
                        (fun d kv => Sheets.dict_set (fst kv) (snd kv) d)
                        pairs acc))
       <-> In k (map fst acc) \/ In k (map fst pairs).
Proof.
  revert acc. induction pairs as [|[k v] pairs IH]; intros acc Hacc; simpl.
  - split; [assumption | intros k; tauto].
  - destruct (dict_set_keys k v acc) as [Hin Hout].
    assert (Hnd : NoDup (map fst (Sheets.dict_set k v acc))).
    { destruct (in_dec string_dec k (map fst acc)) as [Hk|Hk].
      - now rewrite (Hin Hk).
      - rewrite (Hout Hk). now apply NoDup_snoc. }
    destruct (IH _ Hnd) as [IH1 IH2]. split; [assumption|].
    intros k0. rewrite IH2.
    destruct (in_dec string_dec k (map fst acc)) as [Hk|Hk].
    + rewrite (Hin Hk). split; [tauto|].
      intros [H|[<-|H]]; tauto.
    + rewrite (Hout Hk), in_app_iff. simpl. tauto.
Qed.

Lemma fold_dict_set_fresh (pairs acc : Row) :
  NoDup (map fst acc ++ map fst pairs) ->
  fold_left (fun d kv => Sheets.dict_set (fst kv) (snd kv) d) pairs acc
  = acc ++ pairs.
Proof.
  revert acc. induction pairs as [|[k v] pairs IH]; intros acc Hnd; simpl.
  - now rewrite app_nil_r.
  - simpl in Hnd. rewrite dict_set_fresh.
    + rewrite IH; [now rewrite <- app_assoc|].
      rewrite map_app. simpl. now rewrite <- app_assoc.
    + apply NoDup_remove_2 in Hnd. intros H. apply Hnd.
      rewrite in_app_iff. now left.
Qed.

Lemma combine_keys (headers cells : list string) :
  length headers <= length cells ->
  map fst (combine headers cells) = headers.
Proof.
  revert cells. induction headers as [|h headers IH]; intros cells Hlen;
    [reflexivity|].
  destruct cells as [|c cells]; simpl in *; [lia|].
  f_equal. apply IH. lia.
Qed.

Lemma padded_row_length (headers row : list string) :
  length headers <= length (Sheets.padded_row headers row).
Proof.
  unfold Sheets.padded_row. rewrite length_app, repeat_length. lia.
Qed.

Lemma padded_row_nth (headers row : list string) (j : nat) :
  nth j (Sheets.padded_row headers row) "" = nth j row "".
Proof.
  unfold Sheets.padded_row.
  destruct (Nat.lt_ge_cases j (length row)) as [Hlt|Hge].
  - now rewrite app_nth1.
  - rewrite app_nth2 by assumption.
    rewrite (nth_overflow row) by assumption.
    apply nth_repeat.
Qed.

Lemma row_get_combine (headers cells : list string) (j : nat) :
  NoDup headers ->
  j < length headers ->
  length headers <= length cells ->
  Sheets.row_get (combine headers cells) (nth j headers "")
  = Some (nth j cells "").
Proof.
  revert cells j. induction headers as [|h headers IH];
    intros cells j Hnd Hj Hlen; simpl in Hj; [lia|].
  destruct cells as [|c cells]; simpl in Hlen; [lia|].
  inversion Hnd as [|? ? Hh Hnd']; subst.
  destruct j as [|j]; simpl.
  - now rewrite String.eqb_refl.
  - destruct (String.eqb_spec h (nth j headers "")) as [E|_].
    + exfalso. apply Hh. rewrite E. apply nth_In. lia.
    + apply IH; [assumption | lia | lia].
Qed.

End SheetRows.

(** X16. The Sheets reader gives one row per line under the header line,
    and every row has exactly the header names as its keys, each once,
    whatever the number of cells on the line: missing cells are filled and
    surplus cells are dropped. *)
Theorem sheet_rows_have_header_keys (headers : list string)
  (body : list (list string)) :
  exists rows,
    Sheets.rows_of_values (headers :: body) = Returns rows
    /\ length rows = length body
    /\ forall row,
         In row rows ->
         NoDup (map fst row)
         /\ forall k, In k (map fst row) <-> In k headers.
Proof.
  eexists. split; [reflexivity|]. split; [apply length_map|].
  intros row Hin. apply in_map_iff in Hin.
  destruct Hin as (cells & <- & _). unfold Sheets.py_dict.
  destruct (fold_dict_set_keys
              (combine headers (Sheets.padded_row headers cells)) [])
    as [Hnd Hkeys]; [constructor|].
  split; [assumption|]. intros k. rewrite Hkeys.
  rewrite combine_keys by apply padded_row_length. simpl. tauto.
Qed.

Lemma sheet_rows_have_header_keys_witness :
  exists rows,
    Sheets.rows_of_values [["回饋日期"; "評分"]; ["2024-10-01"; "5"; "x"]]
    = Returns rows
    /\ forall row, In row rows -> NoDup (map fst row).
Proof.
  destruct (sheet_rows_have_header_keys ["回饋日期"; "評分"]
              [["2024-10-01"; "5"; "x"]]) as (rows & Hr & _ & Hkeys).
  exists rows. split; [assumption|].
  intros row Hin. now apply Hkeys.
Defined.

(** X17. Under distinct header names a row keeps the order of the headers
    and gives back, for the header in column j, the cell in column j of
    its line, or the empty text when the line is shorter. *)
Theorem sheet_row_lookup (headers cells : list string)
  (body : list (list string)) (i j : nat) :
  NoDup headers ->
  nth_error body i = Some cells ->
  j < length headers ->
  exists rows row,
    Sheets.rows_of_values (headers :: body) = Returns rows
    /\ nth_error rows i = Some row
    /\ map fst row = headers
    /\ Sheets.row_get row (nth j headers "") = Some (nth j cells "").
Proof.
  intros Hnd Hcells Hj.
  eexists.
  exists (Sheets.py_dict (combine headers (Sheets.padded_row headers cells))).
  split; [reflexivity|].
  split.
  { exact (map_nth_error
             (fun row =>
                Sheets.py_dict
                  (combine headers (Sheets.padded_row headers row)))
             i body Hcells). }
  unfold Sheets.py_dict.
  rewrite fold_dict_set_fresh
    by (simpl; rewrite combine_keys by apply padded_row_length;
        assumption).
  simpl. split.
  - apply combine_keys, padded_row_length.
  - rewrite row_get_combine;
      [now rewrite padded_row_nth | assumption | assumption
      | apply padded_row_length].
Qed.

Lemma sheet_row_lookup_witness :
  exists rows row,
    Sheets.rows_of_values
      [["回饋編號"; "回饋日期"; "回饋內容"]; ["FB1"; "2024-10-01"]]
    = Returns rows
    /\ nth_error rows 0 = Some row
    /\ map fst row = ["回饋編號"; "回饋日期"; "回饋內容"]
    /\ Sheets.row_get row "回饋內容" = Some "".
Proof.
  apply (sheet_row_lookup ["回饋編號"; "回饋日期"; "回饋內容"]
           ["FB1"; "2024-10-01"] [["FB1"; "2024-10-01"]] 0 2).
  - repeat constructor; simpl; intuition discriminate.
  - reflexivity.
  - simpl. lia.
Defined.

(** ** The reader and the messages of the Fetch worker *)

Section ReaderFacts.

Variable svc : Sheets.Services.

Lemma drive_read_never_empty (file_id mime_type : string) :
  Sheets._read_via_drive_api svc file_id mime_type <> Returns [].
Proof.
  unfold Sheets._read_via_drive_api, bind.
  destruct (Sheets.drive_frame svc file_id mime_type) as [rows|cls text];
    [|discriminate].
  destruct rows; simpl; discriminate.
Qed.

Lemma sheets_read_empty (file_id : string) :
  Sheets._read_via_sheets_api svc file_id = Returns []
  <-> exists headers, Sheets.sheet_values svc file_id = Returns [headers].
Proof.
  unfold Sheets._read_via_sheets_api, bind. split.
  - destruct (Sheets.sheet_values svc file_id) as [values|cls text];
      [|discriminate].
    destruct values as [|headers body]; simpl; [discriminate|].
    destruct body; simpl; [eauto | discriminate].
  - intros [headers ->]. reflexivity.
Qed.

Lemma read_sheet_header_line (url file_id : string)
  (headers : list string) :
  Sheets.extract_spreadsheet_id svc url = Returns file_id ->
  Sheets._get_credentials svc = Returns tt ->
  Sheets.mime_type_of svc file_id = Returns Sheets.native_sheet ->
  Sheets.sheet_values svc file_id = Returns [headers] ->
  Sheets.read_sheet svc url = Returns [].
Proof.
  intros Hid Hcred Hmime Hv. unfold Sheets.read_sheet, bind.
  rewrite Hid, Hcred, Hmime, String.eqb_refl.
  now rewrite (proj2 (sheets_read_empty file_id)) by eauto.
Qed.

End ReaderFacts.

(** X18. The reader returns an empty list of rows in one case only: the
    address gives a file id, the credentials are there, the file is a
    native sheet, and the sheet holds a header line and nothing else.  An
    uploaded file never reads as an empty list. *)
Theorem read_sheet_empty_only_for_header_line (svc : Sheets.Services)
  (url : string) :
  Sheets.read_sheet svc url = Returns []
  <-> exists file_id headers,
        Sheets.extract_spreadsheet_id svc url = Returns file_id
        /\ Sheets._get_credentials svc = Returns tt
        /\ Sheets.mime_type_of svc file_id = Returns Sheets.native_sheet
        /\ Sheets.sheet_values svc file_id = Returns [headers].
Proof.
  split.
  - unfold Sheets.read_sheet, bind.
    destruct (Sheets.extract_spreadsheet_id svc url) as [file_id|? ?]
      eqn:Hid; [|discriminate].
    destruct (Sheets._get_credentials svc) as [[]|? ?] eqn:Hcred;
      [|discriminate].
    destruct (Sheets.mime_type_of svc file_id) as [mime|? ?] eqn:Hmime;
      [|discriminate].
    destruct (String.eqb_spec mime Sheets.native_sheet) as [->|Hne].
    + destruct (Sheets._read_via_sheets_api svc file_id) as [rows|? ?]
        eqn:Hread.
      * intros H. injection H as ->.
        apply sheets_read_empty in Hread. destruct Hread as [headers Hv].
        exists file_id, headers. repeat split; assumption.
      * intros H. now apply drive_read_never_empty in H.
    + intros H. now apply drive_read_never_empty in H.
  - intros (file_id & headers & Hid & Hcred & Hmime & Hv).
    now apply (read_sheet_header_line svc url file_id headers).
Qed.

Lemma read_sheet_empty_only_for_header_line_witness :
  Sheets.read_sheet header_only_services "1AbC" = Returns [].
Proof.
  apply (read_sheet_empty_only_for_header_line header_only_services "1AbC").
  exists "1AbC", ["回饋編號"; "回饋日期"; "回饋內容"]. repeat split.
Defined.

(** X19. Two kinds of empty source are told apart in the chat: a native
    sheet with only its header line gives the message that the sheet has
    no data, an uploaded file without rows gives the read-error message
    with the reader's own text. *)
Theorem empty_sources_are_told_apart (lib : Collaborators)
  (svc : Sheets.Services) (state : State) (url file_id : string) :
  read_sheet lib = Sheets.read_sheet svc ->
  sheet_url state = Some url -> url <> "" ->
  Sheets.extract_spreadsheet_id svc url = Returns file_id ->
  Sheets._get_credentials svc = Returns tt ->
  (forall headers,
      Sheets.mime_type_of svc file_id = Returns Sheets.native_sheet ->
      Sheets.sheet_values svc file_id = Returns [headers] ->
      fetch_node lib state = Returns (failure_update msg_empty))
  /\ (forall mime,
        Sheets.mime_type_of svc file_id = Returns mime ->
        mime <> Sheets.native_sheet ->
        Sheets.drive_frame svc file_id mime = Returns [] ->
        fetch_node lib state
        = Returns (failure_update (msg_value_error "檔案中沒有資料"))).
Proof.
  intros Hreader Hu Hne Hid Hcred. split.
  - intros headers Hmime Hv.
    apply (fetch_sheet_empty lib state url Hu Hne).
    rewrite Hreader.
    now apply (read_sheet_header_line svc url file_id headers).
  - intros mime Hmime Hnot Hframe.
    apply (fetch_reader_raises lib state url ValueError _ Hu Hne).
    rewrite Hreader. unfold Sheets.read_sheet, bind.
    rewrite Hid, Hcred, Hmime.
    destruct (String.eqb_spec mime Sheets.native_sheet); [congruence|].
    unfold Sheets._read_via_drive_api, bind. now rewrite Hframe.
Qed.

Lemma empty_sources_are_told_apart_witness :
  fetch_node (with_reader header_only_services) (state_with_url "1AbC")
  = Returns (failure_update msg_empty)
  /\ fetch_node (with_reader empty_upload_services) (state_with_url "1AbC")
     = Returns (failure_update (msg_value_error "檔案中沒有資料")).
Proof.
  split.
  - apply (proj1 (empty_sources_are_told_apart
                    (with_reader header_only_services) header_only_services
                    (state_with_url "1AbC") "1AbC" "1AbC"
                    eq_refl eq_refl ltac:(discriminate) eq_refl eq_refl)
             ["回饋編號"; "回饋日期"; "回饋內容"]);
      reflexivity.
  - apply (proj2 (empty_sources_are_told_apart
                    (with_reader empty_upload_services) empty_upload_services
                    (state_with_url "1AbC") "1AbC" "1AbC"
                    eq_refl eq_refl ltac:(discriminate) eq_refl eq_refl)
             "text/csv");
      solve [reflexivity | discriminate].
Defined.

(** X20. An address from which no pattern extracts a file id is reported
    as a read error that quotes the address. *)
Theorem unreadable_address_is_reported (lib : Collaborators)
  (svc : Sheets.Services) (state : State) (url : string) :
  read_sheet lib = Sheets.read_sheet svc ->
  sheet_url state = Some url -> url <> "" ->
  (forall pattern,
      In pattern Sheets.id_patterns ->
      Sheets.url_search svc pattern url = None) ->
  fetch_node lib state
  = Returns (failure_update
               ("❌ 資料讀取錯誤：無法從 URL 擷取 spreadsheet ID: "
                ++ url)%string).
Proof.
  intros Hreader Hu Hne Hnone.
  apply (fetch_reader_raises lib state url ValueError _ Hu Hne).
  rewrite Hreader. unfold Sheets.read_sheet, bind.
  unfold Sheets.extract_spreadsheet_id, Sheets.id_patterns. simpl.
  rewrite !Hnone by (unfold Sheets.id_patterns; simpl; tauto).
  reflexivity.
Qed.

Lemma unreadable_address_is_reported_witness :
  fetch_node (with_reader empty_upload_services)
    (state_with_url "https://example.com/sheet?id=1")
  = Returns (failure_update
               ("❌ 資料讀取錯誤：無法從 URL 擷取 spreadsheet ID: "
                ++ "https://example.com/sheet?id=1")%string).
Proof.
  apply (unreadable_address_is_reported (with_reader empty_upload_services)
           empty_upload_services
           (state_with_url "https://example.com/sheet?id=1")
           "https://example.com/sheet?id=1");
    solve [reflexivity | discriminate].
Defined.

(** ** The chat log *)

Section ChatFacts.

Lemma already_shown_In (chat_history : list ChatEntry) (content : string) :
  already_shown chat_history content = true
  <-> In content (assistant_texts chat_history).
Proof.
  unfold already_shown, assistant_texts. rewrite existsb_exists, in_map_iff.
  split.
  - intros (h & Hin & He). apply String.eqb_eq in He. eauto.
  - intros (h & He & Hin). exists h. split; [assumption|].
    now apply String.eqb_eq.
Qed.

Lemma assistant_texts_snoc (chat_history : list ChatEntry)
  (content : string) :
  assistant_texts (chat_history ++ [mkChatEntry "assistant" content])
  = assistant_texts chat_history ++ [content].
Proof.
  unfold assistant_texts. rewrite filter_app, map_app. reflexivity.
Qed.

(** The log only grows, by assistant entries that carry AI texts. *)
Lemma sync_appends (messages : list Message) :
  forall chat_history,
  exists added,
    sync_chat_history chat_history messages = chat_history ++ added
    /\ Forall (fun h => entry_role h = "assistant"
                        /\ In (entry_content h) (ai_texts messages))
              added.
Proof.
  induction messages as [|[content|content] rest IH]; intros chat_history;
    simpl.
  - exists []. split; [now rewrite app_nil_r | constructor].
  - destruct (already_shown chat_history content).
    + destruct (IH chat_history) as (added & -> & Hall).
      exists added. split; [reflexivity|].
      eapply Forall_impl; [|exact Hall]. simpl. tauto.
    + destruct (IH (chat_history ++ [mkChatEntry "assistant" content]))
        as (added & -> & Hall).
      exists (mkChatEntry "assistant" content :: added).
      split; [now rewrite <- app_assoc|].
      constructor; [simpl; tauto|].
      eapply Forall_impl; [|exact Hall]. simpl. tauto.
  - apply IH.
Qed.

Lemma sync_keeps_shown (messages : list Message) (content : string) :
  forall chat_history,
    In content (assistant_texts chat_history) ->
    In content (assistant_texts (sync_chat_history chat_history messages)).
Proof.
  intros chat_history Hin.
  destruct (sync_appends messages chat_history) as (added & -> & _).
  unfold assistant_texts in *. rewrite filter_app, map_app, in_app_iff.
  now left.
Qed.

(** Every AI text of the state is in the log afterwards. *)
Lemma sync_shows_all (messages : list Message) :
  forall chat_history content,
    In content (ai_texts messages) ->
    In content (assistant_texts (sync_chat_history chat_history messages)).
Proof.
  induction messages as [|[c|c] rest IH]; intros chat_history content Hin;
    simpl in *.
  - destruct Hin.
  - destruct Hin as [<-|Hin]; [|now apply IH].
    apply sync_keeps_shown.
    destruct (already_shown chat_history c) eqn:Hs.
    + now apply already_shown_In.
    + rewrite assistant_texts_snoc, in_app_iff. right. now left.
  - now apply IH.
Qed.

(** A log that already shows every AI text is left as it is. *)
Lemma sync_nothing_new (messages : list Message) :
  forall chat_history,
    (forall content,
        In content (ai_texts messages) ->
        In content (assistant_texts chat_history)) ->
    sync_chat_history chat_history messages = chat_history.
Proof.
  induction messages as [|[c|c] rest IH]; intros chat_history Hall;
    simpl in *; [reflexivity| |now apply IH].
  replace (already_shown chat_history c) with true
    by (symmetry; apply already_shown_In, Hall; now left).
  apply IH. intros content Hin. apply Hall. now right.
Qed.

End ChatFacts.

(** X21. Bringing the chat log up to date only appends: the log so far
    stays as a prefix, every entry added is an assistant entry with the
    text of an AI message of the state, and afterwards every AI message of
    the state has its text in the log. *)
Theorem chat_log_is_extended (chat_history : list ChatEntry)
  (messages : list Message) :
  (exists added,
      sync_chat_history chat_history messages = chat_history ++ added
      /\ Forall (fun h => entry_role h = "assistant"
                          /\ In (entry_content h) (ai_texts messages))
                added)
  /\ forall content,
       In content (ai_texts messages) ->
       In content
          (assistant_texts (sync_chat_history chat_history messages)).
Proof.
  split; [apply sync_appends | intros content; apply sync_shows_all].
Qed.

Lemma chat_log_is_extended_witness :
  In completion_message
     (assistant_texts
        (sync_chat_history [] [HumanMessage "好"; AIMessage completion_message])).
Proof.
  apply (chat_log_is_extended []
           [HumanMessage "好"; AIMessage completion_message]).
  simpl. tauto.
Defined.

(** X22. A text is never shown twice: if the assistant entries of the log
    have distinct texts they still have after the update, so an AI message
    that repeats the text of an earlier one adds nothing to the log. *)
Theorem chat_log_shows_each_text_once (messages : list Message) :
  forall chat_history,
    NoDup (assistant_texts chat_history) ->
    NoDup (assistant_texts (sync_chat_history chat_history messages)).
Proof.
  induction messages as [|[c|c] rest IH]; intros chat_history Hnd; simpl.
  - assumption.
  - destruct (already_shown chat_history c) eqn:Hs; apply IH;
      [assumption|].
    rewrite assistant_texts_snoc. apply NoDup_snoc; [assumption|].
    intros Hin. apply already_shown_In in Hin. congruence.
  - now apply IH.
Qed.

Lemma chat_log_shows_each_text_once_witness :
  NoDup (assistant_texts
           (sync_chat_history [mkChatEntry "user" "同意，開始執行"]
              [AIMessage completion_message; HumanMessage "好";
               AIMessage completion_message])).
Proof.
  apply (chat_log_shows_each_text_once
           [AIMessage completion_message; HumanMessage "好";
            AIMessage completion_message]
           [mkChatEntry "user" "同意，開始執行"]).
  constructor.
Defined.

(** X23. Updating the chat log twice from the same messages is the same as
    updating it once. *)
Theorem chat_log_update_idempotent (chat_history : list ChatEntry)
  (messages : list Message) :
  sync_chat_history (sync_chat_history chat_history messages) messages
  = sync_chat_history chat_history messages.
Proof.
  apply sync_nothing_new. intros content. apply sync_shows_all.
Qed.

(** ** The columns of the knowledge map *)

Section FlattenFacts.

(** Induction on a map, with the property at hand for every child. *)
Lemma Tree_nested_ind (P : Tree -> Prop) :
  (forall name keywords, P (Node name None keywords)) ->
  (forall name cs keywords,
      Forall P cs -> P (Node name (Some cs) keywords)) ->
  forall t, P t.
Proof.
  intros Hleaf Hnode. fix IH 1. intros [name [cs|] keywords].
  - apply Hnode.
    exact ((fix go (l : list Tree) : Forall P l :=
              match l with
              | [] => Forall_nil P
              | c :: l' => Forall_cons c (IH c) (go l')
              end) cs).
  - apply Hleaf.
Qed.

Lemma child_id_not_empty (parent name : string) : child_id parent name <> "".
Proof. unfold child_id. destruct parent; discriminate. Qed.

Lemma node_id_not_empty (parent name : string) :
  parent <> "" \/ name <> "" -> node_id parent name <> "".
Proof.
  destruct parent as [|c rest]; simpl.
  - intros [H|H]; [now contradiction H | assumption].
  - intros _. apply child_id_not_empty.
Qed.

Lemma node_id_under (current name : string) :
  current <> "" -> node_id current name = child_id current name.
Proof. destruct current; [intros H; now contradiction H | reflexivity]. Qed.

Lemma hangs_weaken (ids labels parents known known' : list string) :
  incl known known' ->
  hangs known ids labels parents -> hangs known' ids labels parents.
Proof.
  revert labels parents known known'.
  induction ids as [|i ids IH];
    intros [|l labels] [|p parents] known known' Hincl; simpl; try tauto.
  intros (Hp & Hi & Hrest).
  split; [now apply Hincl|]. split; [assumption|].
  apply (IH labels parents (i :: known)); [|assumption].
  intros x [<-|Hx]; [now left | right; now apply Hincl].
Qed.

Lemma hangs_app (ids1 labels1 parents1 ids2 labels2 parents2 known
  : list string) :
  hangs known ids1 labels1 parents1 ->
  hangs known ids2 labels2 parents2 ->
  hangs known (ids1 ++ ids2) (labels1 ++ labels2) (parents1 ++ parents2).
Proof.
  revert labels1 parents1 known.
  induction ids1 as [|i ids1 IH];
    intros [|l labels1] [|p parents1] known H1 H2; simpl in *;
    try contradiction; try assumption.
  destruct H1 as (Hp & Hi & H1).
  split; [assumption|]. split; [assumption|].
  apply IH; [assumption|].
  apply (hangs_weaken ids2 labels2 parents2 known); [|assumption].
  intros x Hx. now right.
Qed.

Lemma hangs_length (known ids labels parents : list string) :
  hangs known ids labels parents ->
  length labels = length ids /\ length parents = length ids.
Proof.
  revert labels parents known.
  induction ids as [|i ids IH]; intros [|l labels] [|p parents] known;
    simpl; try tauto.
  intros (_ & _ & H). destruct (IH _ _ _ H) as [H1 H2].
  split; congruence.
Qed.

Lemma below_extend (current : string) (a b : Columns) :
  below current a -> below current b -> below current (extend a b).
Proof.
  destruct a as [[ids labels] parents], b as [[ids' labels'] parents'].
  simpl. intros Ha Hb known Hk. apply hangs_app; auto.
Qed.

Lemma keywords_below (small_id : string) (kws : list string) :
  below small_id (keyword_entries small_id kws).
Proof.
  induction kws as [|kw kws IH]; simpl.
  - intros known _. exact I.
  - destruct (keyword_entries small_id kws) as [[ids labels] parents].
    simpl in *. intros known Hk.
    split; [assumption|]. split; [reflexivity|]. apply IH. now right.
Qed.

Lemma below_keyword_leaf (current cname : string) (kws : list string) :
  below current
    (extend ([child_id current cname], [cname], [current])
       (keyword_entries (child_id current cname) kws)).
Proof.
  pose proof (keywords_below (child_id current cname) kws) as H.
  destruct (keyword_entries (child_id current cname) kws)
    as [[ids labels] parents].
  simpl in *. intros known Hk.
  split; [assumption|]. split; [reflexivity|]. apply H. now left.
Qed.

Lemma rooted_below (current cname : string) (cols : Columns) :
  current <> "" -> rooted current cname cols -> below current cols.
Proof.
  intros Hcur (ids & labels & parents & -> & H). simpl.
  intros known Hk.
  split; [assumption|]. split; [now apply node_id_under|].
  apply (hangs_weaken ids labels parents [node_id current cname]);
    [|assumption].
  intros x [<-|[]]. now left.
Qed.

Lemma combine_app_same {A B : Type} (l1 l2 : list A) (l1' l2' : list B) :
  length l1 = length l1' ->
  combine (l1 ++ l2) (l1' ++ l2') = combine l1 l1' ++ combine l2 l2'.
Proof.
  revert l1'. induction l1 as [|a l1 IH]; intros [|b l1']; simpl;
    try discriminate; [reflexivity|].
  intros [= H]. now rewrite IH.
Qed.

Lemma combine_same_length {A B : Type} (l : list A) (l' : list B) :
  length l = length l' -> length (combine l l') = length l.
Proof.
  revert l'. induction l as [|a l IH]; intros [|b l']; simpl;
    try discriminate; [reflexivity|].
  intros [= H]. now rewrite IH.
Qed.

Lemma below_lengths (current : string) (ids labels parents : list string) :
  below current (ids, labels, parents) ->
  length labels = length ids /\ length parents = length ids.
Proof.
  intros H. apply (hangs_length [current]). apply H. now left.
Qed.

Lemma rows_extend (current : string) (a b : Columns) :
  below current a -> rows (extend a b) = rows a ++ rows b.
Proof.
  destruct a as [[ids labels] parents], b as [[ids' labels'] parents'].
  intros H. destruct (below_lengths _ _ _ _ H) as [H1 H2]. simpl.
  rewrite (combine_app_same labels labels' parents parents')
    by congruence.
  apply combine_app_same.
  rewrite combine_same_length; congruence.
Qed.

(** Under a node with a non-empty id, the entries of a child start with
    the child's own row. *)
Lemma child_entries_head (current cname : string)
  (cchildren : option (list Tree)) (ckeywords : option (list string)) :
  current <> "" ->
  (cchildren <> None ->
   rooted current cname
     (_flatten_tree (Node cname cchildren ckeywords) current)) ->
  In (child_id current cname, (cname, current))
     (rows (child_entries current (Node cname cchildren ckeywords))).
Proof.
  intros Hcur Hrooted. destruct cchildren as [ccs|].
  - cbn [child_entries].
    destruct Hrooted as (ids & labels & parents & -> & _);
      [discriminate|].
    rewrite (node_id_under current cname Hcur). now left.
  - destruct ckeywords as [kws|]; cbn [child_entries].
    + destruct (keyword_entries (child_id current cname) kws)
        as [[ids labels] parents]. now left.
    + now left.
Qed.

(** The two facts the induction carries: the shape of the columns, and
    that the entries of every child are among the rows. *)
Lemma flatten_rooted (node : Tree) :
  forall parent,
    match node with
    | Node name children _ =>
        parent <> "" \/ name <> "" ->
        rooted parent name (_flatten_tree node parent)
        /\ forall cs child,
             children = Some cs -> In child cs ->
             incl (rows (child_entries (node_id parent name) child))
                  (rows (_flatten_tree node parent))
    end.
Proof.
  induction node as [name keywords | name cs keywords IH]
    using Tree_nested_ind; intros parent Hid.
  - split.
    + exists [], [], []. split; [reflexivity | exact I].
    + intros cs child Hcs. discriminate Hcs.
  - cbn [_flatten_tree].
    fold (node_id parent name).
    pose proof (node_id_not_empty parent name Hid) as Hcur.
    set (current := node_id parent name) in *.
    match goal with
    | |- rooted _ _ (extend _ (?f cs)) /\ _ => set (over := f)
    end.
    assert (Hover : below current (over cs)
                    /\ forall child,
                         In child cs ->
                         incl (rows (child_entries current child))
                              (rows (over cs))).
    { induction IH as [|child rest Hchild _ IHrest].
      - split; [intros known _; exact I | intros child []].
      - destruct IHrest as [Hb Hin].
        change (over (child :: rest))
          with (extend (child_entries current child) (over rest)).
        assert (Hseg : below current (child_entries current child)).
        { specialize (Hchild current).
          destruct child as [cname [ccs|] [kws|]].
          + apply (rooted_below current cname); [assumption|].
            apply (Hchild (or_introl Hcur)).
          + apply (rooted_below current cname); [assumption|].
            apply (Hchild (or_introl Hcur)).
          + apply below_keyword_leaf.
          + intros known Hk. simpl.
            split; [assumption|]. split; [reflexivity | exact I]. }
        split; [now apply below_extend|].
        rewrite (rows_extend current _ _ Hseg).
        intros child' [<-|Hc].
        + apply incl_appl, incl_refl.
        + apply incl_appr. now apply Hin. }
    destruct Hover as [Hb Hin].
    destruct (over cs) as [[ids labels] parents].
    split.
    + exists ids, labels, parents. split; [reflexivity|].
      apply Hb. now left.
    + intros cs0 child [= <-] Hc. apply incl_tl. now apply Hin.
Qed.

End FlattenFacts.

(** X24. A knowledge map whose root gets a non-empty id (the parent or the
    root's name is not empty) is flattened into three equally long columns.
    The first entry is the node itself: its id is its name, or the parent,
    a slash and the name under a non-empty parent; its label is its name
    and its parent the one given.  Every other entry names as its parent an
    id that stands earlier in the id column, and its own id is that parent,
    a slash and its label.  No child is left out: each child of the node
    has its row, with the node's id as parent, and all the entries the
    child adds, the flattening of its own subtree or its keywords, are
    among the rows. *)
Theorem flatten_tree_entries_hang_below_the_node (name : string)
  (children : option (list Tree)) (keywords : option (list string))
  (parent : string) :
  parent <> "" \/ name <> "" ->
  let current_id := node_id parent name in
  let cols := _flatten_tree (Node name children keywords) parent in
  (exists ids labels parents,
     cols = (current_id :: ids, name :: labels, parent :: parents)
     /\ length labels = length ids
     /\ length parents = length ids
     /\ hangs [current_id] ids labels parents)
  /\ (forall cs cname cchildren ckeywords,
        children = Some cs ->
        In (Node cname cchildren ckeywords) cs ->
        In (child_id current_id cname, (cname, current_id)) (rows cols)
        /\ incl (rows (child_entries current_id
                         (Node cname cchildren ckeywords)))
                (rows cols)).
Proof.
  intros Hid. cbv zeta.
  destruct (flatten_rooted (Node name children keywords) parent Hid)
    as [(ids & labels & parents & E & H) Hchildren].
  split.
  - destruct (hangs_length _ _ _ _ H) as [H1 H2].
    exists ids, labels, parents. tauto.
  - intros cs cname cchildren ckeywords Hcs Hin.
    pose proof (Hchildren cs _ Hcs Hin) as Hincl.
    split; [|exact Hincl].
    apply Hincl. apply child_entries_head.
    + now apply node_id_not_empty.
    + intros _.
      apply (flatten_rooted (Node cname cchildren ckeywords)
               (node_id parent name)).
      left. now apply node_id_not_empty.
Qed.

Lemma flatten_tree_entries_hang_below_the_node_witness :
  In (child_id (node_id "" "顧客回饋") "客服",
      ("客服", node_id "" "顧客回饋"))
     (rows (_flatten_tree sample_map ""))
  /\ incl (rows (child_entries (node_id "" "顧客回饋")
                   (Node "物流"
                      (Some [Node "出貨" None (Some ["慢"; "延遲"])]) None)))
          (rows (_flatten_tree sample_map "")).
Proof.
  assert (Hid : "" <> "" \/ "顧客回饋" <> "") by (right; discriminate).
  pose proof (flatten_tree_entries_hang_below_the_node "顧客回饋"
                (Some [Node "物流"
                         (Some [Node "出貨" None (Some ["慢"; "延遲"])])
                         None;
                       Node "客服" None None])
                None "" Hid) as H.
  cbv zeta in H. destruct H as [_ H].
  split.
  - exact (proj1 (H _ "客服" None None eq_refl
                    (or_intror (or_introl eq_refl)))).
  - exact (proj2 (H _ "物流"
                    (Some [Node "出貨" None (Some ["慢"; "延遲"])]) None
                    eq_refl (or_introl eq_refl))).
Defined.

(** ** The texts and their ids *)

(** X25. The texts taken from the rows and the ids taken beside them pair
    up: the two lists are equally long, no text is empty, and there is no
    text at all exactly when no row has a non-empty feedback text. *)
Theorem feedback_texts_pair_with_ids (raw_data : list Row) :
  length (feedback_texts raw_data) = length (feedback_ids raw_data)
  /\ Forall (fun text => text <> "") (feedback_texts raw_data)
  /\ (feedback_texts raw_data = []
      <-> forall row,
            In row raw_data ->
            truthy_cell (Sheets.row_get row "回饋內容") = false).
Proof.
  unfold feedback_ids. generalize 0 as i.
  induction raw_data as [|row rest IH]; intros i.
  - simpl. repeat split; [constructor | tauto].
  - destruct (IH (S i)) as (Hlen & Hne & Hnil).
    unfold feedback_texts in *. cbn [filter feedback_ids_from].
    destruct (truthy_cell (Sheets.row_get row "回饋內容")) eqn:Hrow.
    + cbn [map length]. repeat split.
      * now rewrite Hlen.
      * constructor; [|assumption].
        destruct (Sheets.row_get row "回饋內容") as [[|c v]|];
          discriminate.
      * discriminate.
      * intros Hall. rewrite (Hall row (or_introl eq_refl)) in Hrow.
        discriminate.
    + repeat split; try assumption.
      * intros Hempty r [<-|Hin]; [assumption | now apply Hnil].
      * intros Hall. apply Hnil. intros r Hin. apply Hall. now right.
Qed.

Lemma feedback_texts_pair_with_ids_witness :
  feedback_texts [[("回饋日期", "2024-10-01")]; [("回饋內容", "")]] = [].
Proof.
  apply (feedback_texts_pair_with_ids
           [[("回饋日期", "2024-10-01")]; [("回饋內容", "")]]).
  intros row [<-|[<-|[]]]; reflexivity.
Defined.

(** ** The Chart worker *)

Section ChartFacts.

Variable gen : Generators.

Lemma pie_step_keys (requested : list string) (present : bool)
  (acc : Progress) :
  map fst (chart_paths (pie_step gen requested present acc))
  = map fst (chart_paths acc)
    ++ (if py_in "pie" requested && present
        then match _generate_pie_chart gen with
             | Returns _ => ["pie"]
             | Raises _ _ => []
             end
        else []).
Proof.
  unfold pie_step. destruct (py_in "pie" requested && present);
    [|now rewrite app_nil_r].
  destruct (_generate_pie_chart gen); simpl;
    [now rewrite map_app | now rewrite app_nil_r].
Qed.

Lemma line_step_keys (requested : list string) (present : bool)
  (acc : Progress) :
  map fst (chart_paths (line_step gen requested present acc))
  = map fst (chart_paths acc)
    ++ (if py_in "line" requested && present
        then match _generate_line_chart gen with
             | Returns (Some (String _ _)) => ["line"]
             | _ => []
             end
        else []).
Proof.
  unfold line_step. destruct (py_in "line" requested && present);
    [|now rewrite app_nil_r].
  destruct (_generate_line_chart gen) as [[[|c rest]|]|cls e]; simpl;
    try (now rewrite app_nil_r). now rewrite map_app.
Qed.

Lemma bar_step_keys (requested : list string) (present : bool)
  (acc : Progress) :
  map fst (chart_paths (bar_step gen requested present acc))
  = map fst (chart_paths acc)
    ++ (if py_in "bar" requested && present
        then match _generate_bar_chart gen with
             | Returns _ => ["bar"]
             | Raises _ _ => []
             end
        else []).
Proof.
  unfold bar_step. destruct (py_in "bar" requested && present);
    [|now rewrite app_nil_r].
  destruct (_generate_bar_chart gen); simpl;
    [now rewrite map_app | now rewrite app_nil_r].
Qed.

End ChartFacts.

(** X26. Each of the three charts is in chart_paths exactly when its kind
    is among the requested ones (all three when none is requested), the
    artifact it draws from is there and its own drawing function returned
    a path: an exception or a missing input of one chart never keeps
    another chart out. *)
Theorem each_chart_depends_on_its_own_outcome (gen : Generators)
  (sentiment_result clusters : bool) (state : State) :
  let u := chart_node gen sentiment_result clusters state in
  let requested := requested_types state in
  (In "pie" (map fst (u_chart_paths u))
   <-> py_in "pie" requested = true
       /\ sentiment_result = true
       /\ exists path, _generate_pie_chart gen = Returns path)
  /\ (In "line" (map fst (u_chart_paths u))
      <-> py_in "line" requested = true
          /\ (exists row rows, raw_data state = Some (row :: rows))
          /\ exists c rest,
               _generate_line_chart gen = Returns (Some (String c rest)))
  /\ (In "bar" (map fst (u_chart_paths u))
      <-> py_in "bar" requested = true
          /\ clusters = true
          /\ exists path, _generate_bar_chart gen = Returns path).
Proof.
  cbv zeta. unfold chart_node. cbv zeta. cbn [u_chart_paths].
  rewrite bar_step_keys, line_step_keys, pie_step_keys. cbn [chart_paths map].
  cbn [app].
  assert (Hrows : forall b,
             b = match raw_data state with
                 | Some (_ :: _) => true
                 | _ => false
                 end ->
             (b = true <-> exists row rows, raw_data state = Some (row :: rows))).
  { intros b ->. destruct (raw_data state) as [[|row rows]|]; split;
      try discriminate; try (intros (? & ? & ?); discriminate); eauto. }
  specialize (Hrows _ eq_refl).
  destruct (py_in "pie" (requested_types state)),
    (py_in "line" (requested_types state)),
    (py_in "bar" (requested_types state)),
    sentiment_result, clusters,
    (match raw_data state with Some (_ :: _) => true | _ => false end),
    (_generate_pie_chart gen) as [p|? ?],
    (_generate_line_chart gen) as [[[|c r]|]|? ?],
    (_generate_bar_chart gen) as [b|? ?];
    cbn [andb app In];
    (split; [|split]); split;
    try (intros H;
         repeat (destruct H as [H|H]; try discriminate H);
         try contradiction;
         repeat split; eauto; apply Hrows; reflexivity);
    try (intros (H1 & H2 & H3);
         try discriminate H1; try discriminate H2;
         try (apply Hrows in H2; discriminate H2);
         try (destruct H3 as (? & H3); try discriminate H3;
              destruct H3 as (? & H3); discriminate H3);
         tauto).
Qed.

Lemma each_chart_depends_on_its_own_outcome_witness :
  In "bar"
     (map fst
        (u_chart_paths
           (chart_node
              {| _generate_pie_chart := Raises OtherException "font";
                 _generate_line_chart := Returns None;
                 _generate_bar_chart := Returns "outputs/chart_bar.png" |}
              true true fresh_state))).
Proof.
  apply (proj2 (proj2 (proj2 (each_chart_depends_on_its_own_outcome
           {| _generate_pie_chart := Raises OtherException "font";
              _generate_line_chart := Returns None;
              _generate_bar_chart := Returns "outputs/chart_bar.png" |}
           true true fresh_state)))).
  split; [reflexivity | split; [reflexivity |]].
  exists "outputs/chart_bar.png". reflexivity.
Defined.

(** X27. When chart kinds are requested and none of them is pie, line or
    bar, no drawing function is called and the node answers that there is
    not enough data, whatever data the state holds. *)
Theorem unknown_chart_kinds_are_reported_as_missing_data (gen gen' : Generators)
  (sentiment_result clusters : bool) (state : State) (qc : QueryContext) :
  query_context state = Some qc ->
  chart_types qc <> [] ->
  py_in "pie" (chart_types qc) = false ->
  py_in "line" (chart_types qc) = false ->
  py_in "bar" (chart_types qc) = false ->
  chart_node gen sentiment_result clusters state
  = {| u_chart_paths := []; u_chart_message := msg_no_chart |}
  /\ chart_node gen sentiment_result clusters state
     = chart_node gen' sentiment_result clusters state.
Proof.
  intros Hq Hne Hp Hl Hb.
  assert (Hreq : requested_types state = chart_types qc).
  { unfold requested_types. rewrite Hq.
    destruct (chart_types qc); [congruence | reflexivity]. }
  unfold chart_node, pie_step, line_step, bar_step. cbv zeta.
  rewrite Hreq, Hp, Hl, Hb. cbn [andb]. split; reflexivity.
Qed.

Lemma unknown_chart_kinds_are_reported_as_missing_data_witness :
  u_chart_message
    (chart_node
       {| _generate_pie_chart := Returns "outputs/chart_pie.png";
          _generate_line_chart := Returns (Some "outputs/chart_line.png");
          _generate_bar_chart := Returns "outputs/chart_bar.png" |}
       true true
       {| messages := []; user_input := "畫散佈圖"; plan := None;
          plan_approved := false; current_step := 0; awaiting_human := false;
          interrupt_message := None; sheet_url := None;
          raw_data := Some sample_rows; dataframe_summary := None;
          query_context :=
            Some {| intent := "visualization_only"; time_range := None;
                    chart_types := ["scatter"];
                    needs_clarification := false;
                    clarification_question := None |} |})
  = msg_no_chart.
Proof.
  match goal with
  | |- u_chart_message (chart_node ?g ?a ?b ?s) = _ =>
      rewrite (proj1 (unknown_chart_kinds_are_reported_as_missing_data
                        g g a b s
                        {| intent := "visualization_only";
                           time_range := None;
                           chart_types := ["scatter"];
                           needs_clarification := false;
                           clarification_question := None |}
                        eq_refl ltac:(discriminate) eq_refl eq_refl eq_refl))
  end.
  reflexivity.
Defined.
